(** * bepress CSV handler: a shallow embedding of [csv_handler.py]

    The module turns one row of a bepress CSV export (a dictionary from
    column names to strings) into an article dictionary, resolves the
    full-text URL (possibly by fetching the article page), renders the
    dictionary through a template and writes the result to disk.

    Python dictionaries are finite maps ([gmap]); the logger, the HTTP
    client, the file system and standard output are a [world] that every
    effectful function threads; a raised exception is an [Err] result that
    keeps the world as it was when the exception left the function. *)

From Stdlib Require Import Ascii String DecimalString.
From stdpp Require Import gmap strings list fin_maps.

Set Default Proof Using "Type".

Local Open Scope string_scope.
Local Open Scope list_scope.
Local Open Scope nat_scope.

(** ** Python primitives on strings *)

Module Py.

(** Truth value of a [str]: only the empty string is falsy. *)
Definition truthy (s : string) : bool :=
  match s with
  | EmptyString => false
  | String _ _ => true
  end.

(** Truth value of [d.get(k)] for a dictionary of strings: [None] and the
    empty string are falsy. *)
Definition truthy_opt (o : option string) : bool :=
  match o with
  | None => false
  | Some s => truthy s
  end.

(** [c in s] for a one-character needle [c]. *)
Fixpoint contains (c : Ascii.ascii) (s : string) : bool :=
  match s with
  | EmptyString => false
  | String a s' => if Ascii.eqb a c then true else contains c s'
  end.

(** [s.split(sep)] for a one-character separator: [cur] is the piece being
    read. Empty pieces are kept, as [str.split] with an explicit separator
    keeps them. *)
Fixpoint split_from (sep : Ascii.ascii) (cur : string) (s : string) : list string :=
  match s with
  | EmptyString => [cur]
  | String a s' =>
      if Ascii.eqb a sep then cur :: split_from sep EmptyString s'
      else split_from sep (cur +:+ String a EmptyString) s'
  end.

Definition split (sep : Ascii.ascii) (s : string) : list string :=
  split_from sep EmptyString s.

(** [sep.join(l)], used to state what [split] computes. *)
Fixpoint join (sep : string) (l : list string) : string :=
  match l with
  | [] => EmptyString
  | [x] => x
  | x :: l' => x +:+ sep +:+ join sep l'
  end.

(** [dict(mapping, **kwargs)]: a copy of [mapping] with the keyword arguments
    laid over it in the order they are written. *)
Definition dict {V} (mapping : gmap string V) (kwargs : list (string * V))
    : gmap string V :=
  foldl (λ d kv, <[kv.1 := kv.2]> d) mapping kwargs.

(** [str(n)] for a natural number. *)
Definition str_of_nat (n : nat) : string :=
  NilZero.string_of_uint (Nat.to_uint n).

(** [template % n] where the only conversions of [template] are [%d]. *)
Fixpoint format_d (template : string) (n : nat) : string :=
  match template with
  | String "%"%char (String "d"%char rest) => str_of_nat n +:+ format_d rest n
  | String a rest => String a (format_d rest n)
  | EmptyString => EmptyString
  end.

(** [template % s] where the only conversions of [template] are [%s]. *)
Fixpoint format_s (template : string) (s : string) : string :=
  match template with
  | String "%"%char (String "s"%char rest) => s +:+ format_s rest s
  | String a rest => String a (format_s rest s)
  | EmptyString => EmptyString
  end.

End Py.

(** ** Rows and author dictionaries *)

(** A row of the CSV reader and an author dictionary both map strings to
    strings. (The [None] that the reader puts in the missing fields of a
    short line is outside the model: every field of a row is a string.) *)
Abbreviation Row := (gmap string string).
Abbreviation Author := (gmap string string).

(** [AUTHOR_FIELDS_MAP]. The source writes a set of pairs; its elements are
    listed here in source order, and [build_author_perm] below shows that the
    iteration order does not matter. *)
Definition AUTHOR_FIELDS_MAP : list (string * string) :=
  [ ("author%d_fname", "first_name");
    ("author%d_mname", "middle_name");
    ("author%d_lname", "last_name");
    ("author%d_suffix", "salutation");
    ("author%d_email", "email");
    ("author%d_institution", "institution");
    ("author%d_is_corporate", "is_corporate") ].

(** One pass of the inner loop of [parse_authors]:
    [if row.get(src % author_index): author[dest] = row[src % author_index]]. *)
Definition author_field (row : Row) (author_index : nat)
    (author : Author) (field : string * string) : Author :=
  let '(src, dest) := field in
  match row !! Py.format_d src author_index with
  | Some v => if Py.truthy v then <[dest := v]> author else author
  | None => author
  end.

(** The inner loop of [parse_authors] over any list of field pairs. *)
Definition build_author_with (fields : list (string * string))
    (row : Row) (author_index : nat) : Author :=
  foldl (author_field row author_index) ∅ fields.

(** The candidate dictionary of one author index. *)
Definition build_author (row : Row) (author_index : nat) : Author :=
  build_author_with AUTHOR_FIELDS_MAP row author_index.

(** Truth value of a dictionary: only the empty one is falsy. *)
Definition dict_truthy (d : Author) : bool := bool_decide (d ≠ ∅).

(** The outer loop of [parse_authors] over the remaining indices, with the
    [break] at the first blank author. *)
Fixpoint parse_authors_loop (row : Row) (indices : list nat)
    (authors : list Author) : list Author :=
  match indices with
  | [] => authors
  | author_index :: rest =>
      let author := build_author row author_index in
      if dict_truthy author
      then parse_authors_loop row rest (authors ++ [author])
      else authors
  end.

(** [parse_authors(row)]: the indices are [range(1, 6)]. *)
Definition parse_authors (row : Row) : list Author :=
  parse_authors_loop row (seq 1 5) [].

(** ** Values, exceptions and the world *)

(** The values an article dictionary holds: [None], [False], a string of the
    row, the list of keywords, the list of author dictionaries. *)
Inductive pyval :=
  | PyNone
  | PyBool (b : bool)
  | PyStr (s : string)
  | PyList (l : list string)
  | PyDicts (l : list Author).

(** [row.get(key)] as a value: [None] when the key is absent. *)
Definition of_option (o : option string) : pyval :=
  match o with
  | Some s => PyStr s
  | None => PyNone
  end.

(** A location on disk: the names of the directories from the root down to
    the entry. *)
Abbreviation Location := (list string).

(** *** pathlib

    A [pathlib.Path] on a POSIX system: its root (empty for a relative path,
    one slash, or two slashes) and its parts below the root. The parts hold
    no slash and are never empty nor a single dot; [..] stays as it is
    written. *)
Record PurePath := MkPath {
  path_root : string;
  path_parts : list string;
}.

(** [s.lstrip(c)] for one character. *)
Fixpoint lstrip (c : Ascii.ascii) (s : string) : string :=
  match s with
  | String a s' => if Ascii.eqb a c then lstrip c s' else s
  | EmptyString => EmptyString
  end.

(** The root of one constructor argument and what follows it: exactly two
    leading slashes are kept as a root of their own, any other number of
    them is the root [/]. *)
Definition splitroot (part : string) : string * string :=
  match part with
  | String "/"%char _ =>
      let stripped := lstrip "/" part in
      if Nat.eqb (String.length part - String.length stripped) 2
      then ("//", stripped)
      else ("/", stripped)
  | _ => ("", part)
  end.

(** The parts of what follows the root: the pieces between slashes, without
    the empty ones and the single dots. *)
Definition path_components (rel : string) : list string :=
  filter (λ x, x ≠ "" ∧ x ≠ ".") (Py.split "/" rel).

(** One more argument of the constructor: an argument with a root replaces
    what was there, another one adds its parts. *)
Definition path_join (p : PurePath) (arg : string) : PurePath :=
  let '(root, rel) := splitroot arg in
  if decide (root = "")
  then MkPath (path_root p) (path_parts p ++ path_components rel)
  else MkPath root (path_components rel).

(** [pathlib.Path] applied to the arguments [args]. *)
Definition Path (args : list string) : PurePath :=
  foldl path_join (MkPath "" []) args.

(** [path.parent]: a path without parts is its own parent. *)
Definition path_parent (p : PurePath) : PurePath :=
  MkPath (path_root p) (removelast (path_parts p)).

(** [str(path)]. *)
Definition path_str (p : PurePath) : string :=
  match path_root p, path_parts p with
  | EmptyString, [] => "."
  | root, parts => root +:+ Py.join "/" parts
  end.

(** *** The file system

    Directories and regular files are kept by location; there are no
    symbolic links and no permissions, and the two roots [/] and [//] are
    the same directory. *)
Inductive entry := Absent | File | Dir.

(** What is at a location: the root is always a directory. *)
Definition entry_kind (dirs : gset Location) (files : gmap Location string)
    (q : Location) : entry :=
  if decide (q = [] ∨ q ∈ dirs) then Dir
  else if decide (is_Some (files !! q)) then File
  else Absent.

(** The error numbers of the system calls: [ENOENT] is raised as
    [FileNotFoundError], [ENOTDIR] as [NotADirectoryError], [EEXIST] as
    [FileExistsError] and [EISDIR] as [IsADirectoryError], all of them
    subclasses of [OSError]. *)
Inductive errno := ENOENT | ENOTDIR | EEXIST | EISDIR.

(** The directory that the names [comps] lead to from the directory [cur]:
    every name has to be an existing directory, and [..] is the directory
    above. *)
Fixpoint walk (dirs : gset Location) (files : gmap Location string)
    (cur : Location) (comps : list string) : errno + Location :=
  match comps with
  | [] => inr cur
  | name :: rest =>
      if decide (name = "..") then walk dirs files (removelast cur) rest
      else match entry_kind dirs files (cur ++ [name]) with
           | Dir => walk dirs files (cur ++ [name]) rest
           | File => inl ENOTDIR
           | Absent => inl ENOENT
           end
  end.

(** The exceptions that leave the functions of the module. *)
Inductive exn :=
  | KeyError (key : string)
  | OSError (code : errno) (filename : string).

Inductive result (A : Type) :=
  | Ok (a : A)
  | Err (e : exn).
Arguments Ok {A} a.
Arguments Err {A} e.

Inductive log_level := DEBUG | INFO | WARNING.

(** What [requests.get] does: it raises a [RequestException] (kept with its
    message) or returns a response with its [ok] flag and its [text]. *)
Inductive http_outcome :=
  | RequestException (exc : string)
  | Response (ok : bool) (text : string).

(** Everything outside the interpreter that the module reads or changes. *)
Record world := World {
  fs_dirs : gset Location;           (* directories on disk *)
  fs_files : gmap Location string;   (* regular files with their content *)
  stdout : list string;              (* what [print] was called with *)
  log : list (log_level * string);   (* records of the module's logger *)
  fetched : list string;             (* URLs passed to [requests.get] *)
}.

(** ** The monad of effectful functions *)

Definition M (A : Type) : Type := world → result A * world.

Definition M_ret {A} (a : A) : M A := λ w, (Ok a, w).

Definition M_bind {A B} (f : A → M B) (m : M A) : M B :=
  λ w, match m w with
       | (Ok a, w') => f a w'
       | (Err e, w') => (Err e, w')
       end.

#[global] Instance M_mret : MRet M := @M_ret.
#[global] Instance M_mbind : MBind M := @M_bind.

Definition raise {A} (e : exn) : M A := λ w, (Err e, w).

(** [d[key]] on a dictionary of strings. *)
Definition getitem (d : gmap string string) (key : string) : M string :=
  match d !! key with
  | Some v => mret v
  | None => raise (KeyError key)
  end.

(** [logger.debug], [logger.info], [logger.warning] with the message already
    formatted. *)
Definition logger (level : log_level) (msg : string) : M unit :=
  λ w, (Ok (), World (fs_dirs w) (fs_files w) (stdout w)
                     (log w ++ [(level, msg)]) (fetched w)).

(** [print(text)]. *)
Definition print (text : string) : M unit :=
  λ w, (Ok (), World (fs_dirs w) (fs_files w) (stdout w ++ [text])
                     (log w) (fetched w)).

(** The locations of [parts] and of the directories above it, from the
    directory [base] down, when no part is [..]. *)
Definition path_chain (base : Location) (parts : list string) : list Location :=
  (λ n, base ++ take n parts) <$> seq 1 (length parts).

(** The effects of [w'] on the disk when only directories were made since
    [w]: the files are the same, no directory was removed, and a new
    directory stands where nothing was. *)
Definition only_new_dirs (w w' : world) : Prop :=
  fs_files w' = fs_files w ∧ stdout w' = stdout w ∧ log w' = log w ∧
  fetched w' = fetched w ∧
  fs_dirs w ⊆ fs_dirs w' ∧
  ∀ q, q ∈ fs_dirs w' → q ∉ fs_dirs w → fs_files w !! q = None.

(** The disk of [w'] holds what the disk of [w] held: no directory and no
    file was removed, and no directory was made where a file was. *)
Definition disk_grows (w w' : world) : Prop :=
  fs_dirs w ⊆ fs_dirs w' ∧
  (∀ q, is_Some (fs_files w !! q) → is_Some (fs_files w' !! q)) ∧
  (∀ q, q ∈ fs_dirs w' → q ∉ fs_dirs w → fs_files w !! q = None).

(** ** Sample data

    Rows, a network, an anchor finder and a renderer on which the functions
    are run below. *)

Definition world0 : world := World ∅ ∅ [] [] [].

Definition page_with_pdf : string :=
  "<a id='pdf' href='http://x/y.pdf'>Download</a>".
Definition page_with_empty_href : string := "<a id='pdf' href=''>Download</a>".
Definition page_without_href : string := "<a id='pdf'>Download</a>".
Definition page_without_anchor : string := "<p>No download</p>".

(** A network with four article pages; every other URL is unreachable. *)
Definition sample_network (url : string) : http_outcome :=
  if String.eqb url "http://x/a1" then Response true page_with_pdf
  else if String.eqb url "http://x/a2" then Response true page_with_empty_href
  else if String.eqb url "http://x/a3" then Response true page_without_href
  else if String.eqb url "http://x/a4" then Response true page_without_anchor
  else if String.eqb url "http://x/a5" then Response false "Not Found"
  else RequestException "connection refused".

(** The anchors with id [pdf] of the sample pages. *)
Definition sample_find_pdf_anchor (text : string) : option (gmap string string) :=
  if String.eqb text page_with_pdf
  then Some (<["href" := "http://x/y.pdf"]> {["id" := "pdf"]})
  else if String.eqb text page_with_empty_href
  then Some (<["href" := ""]> {["id" := "pdf"]})
  else if String.eqb text page_without_href
  then Some {["id" := "pdf"]}
  else None.

(** A renderer that prints the article id of the context. *)
Definition sample_render (template : string)
    (context : gmap string (gmap string pyval)) : string :=
  match context !! "article" ≫= (λ article, article !! "article_id") with
  | Some (PyStr id) => "<document id='" +:+ id +:+ "'/>"
  | _ => "<document/>"
  end.

(** The scenario row of the documentation: no article id, three disciplines. *)
Definition row_scenario : Row :=
  <["context_key" := "42"]> (<["issue" := "3"]> {["disciplines" := "A;B;C"]}).

(** A row with an explicit full-text URL and an article id of its own. *)
Definition row_explicit : Row :=
  <["fulltext_url" := "http://x/y"]>
    (<["article_id" := "7"]>
      (<["context_key" := "42"]> (<["issue" := "3"]> {["disciplines" := "A"]}))).

(** A row with an article id but no context key. *)
Definition row_no_context_key : Row :=
  <["article_id" := "7"]> (<["issue" := "3"]> {["disciplines" := "A"]}).

(** Rows whose full-text URL has to be scraped from an article page. *)
Definition row_scrape (calc_url : string) : Row :=
  <["calc_url" := calc_url]>
    (<["context_key" := "42"]> (<["issue" := "3"]> {["disciplines" := "A"]})).

(** A row with empty language and peer-review columns. *)
Definition row_empty_language : Row :=
  <["language" := ""]> (<["peer_reviewed" := ""]> row_scenario).

(** A row whose first author is blank and whose second is not. *)
Definition row_author_gap : Row :=
  <["author1_fname" := ""]> (<["author2_fname" := "Bo"]> row_scenario).

(** A row with two authors. *)
Definition row_two_authors : Row :=
  <["author1_fname" := "Ann"]>
    (<["author1_email" := ""]>
      (<["author2_lname" := "Lee"]> (<["author4_lname" := "Poe"]> row_scenario))).

(** The article dictionary of [row_explicit]. *)
Definition parsed_explicit : gmap string pyval :=
  list_to_map
    [ ("disciplines", PyStr "A"); ("issue", PyStr "3");
      ("context_key", PyStr "42");
      ("article_id", PyStr "42");
      ("fulltext_url", PyStr "http://x/y?unstamped=1");
      ("keywords", PyList ["A"]);
      ("language", PyStr "en");
      ("peer_reviewed", PyBool false);
      ("authors", PyDicts []) ].

(** The article dictionary of [row_empty_language], before the authors. *)
Definition article_empty_language : gmap string pyval :=
  list_to_map
    [ ("disciplines", PyStr "A;B;C"); ("issue", PyStr "3");
      ("context_key", PyStr "42");
      ("article_id", PyStr "42");
      ("fulltext_url", PyNone);
      ("keywords", PyList ["A"; "B"; "C"]);
      ("language", PyStr "");
      ("peer_reviewed", PyStr "") ].

(** [row_two_authors] without the empty e-mail column of the first author. *)
Definition row_two_authors_no_email : Row :=
  delete "author1_email" row_two_authors.

(** A row without an issue, and its article dictionary. *)
Definition row_no_issue : Row :=
  <["context_key" := "42"]> {["disciplines" := "A"]}.

Definition parsed_no_issue : gmap string pyval :=
  list_to_map
    [ ("disciplines", PyStr "A"); ("context_key", PyStr "42");
      ("article_id", PyStr "42");
      ("fulltext_url", PyNone);
      ("keywords", PyList ["A"]);
      ("language", PyStr "en");
      ("peer_reviewed", PyBool false);
      ("authors", PyDicts []) ].

(** The working directory of the sample runs: the root directory. *)
Definition sample_cwd : Location := [].

(** A working directory below the root, and a disk that holds it. *)
Definition home_cwd : Location := ["home"; "janeway"].

Definition world_home : world :=
  World (list_to_set [["home"]; ["home"; "janeway"]]) ∅ [] [] [].

(** A row whose issue holds a slash, and a disk with a regular file where
    the first half of that issue has to be a directory. *)
Definition row_slashed_issue : Row :=
  <["issue" := "vol1/iss1"]> row_scenario.

Definition world_file_in_the_way : world :=
  World {[ ["data"] ]} {[ ["data"; "vol1"] := "notes" ]} [] [] [].

(** A row with an absolute issue and a row with an empty identity. *)
Definition row_absolute_issue : Row := <["issue" := "/srv/out"]> row_scenario.

Definition row_empty_identity : Row := <["context_key" := ""]> row_scenario.

(** The world after [row_scenario] was printed. *)
Definition world_scenario_printed : world :=
  World ∅ ∅ ["<document id='42'/>"] [] [].

(** The world after [row_explicit] was committed under [/data]. *)
Definition world_explicit_committed : world :=
  World (list_to_set [["data"]; ["data"; "3"]; ["data"; "3"; "7"]])
        {[ ["data"; "3"; "7"; "metadata.xml"] := "<document id='42'/>" ]}
        []
        [(INFO, "Writing to /data/3/7/metadata.xml")]
        [].

(** The world after [row_scenario] was committed next. *)
Definition world_two_committed : world :=
  World (list_to_set [["data"]; ["data"; "3"]; ["data"; "3"; "7"];
                      ["data"; "3"; "42"]])
        (<[ ["data"; "3"; "42"; "metadata.xml"] := "<document id='42'/>" ]>
           {[ ["data"; "3"; "7"; "metadata.xml"] := "<document id='42'/>" ]})
        []
        [(INFO, "Writing to /data/3/7/metadata.xml");
         (INFO, "Writing to /data/3/42/metadata.xml")]
        [].

(** ** The functions of [csv_handler.py] *)

Section CsvHandler.

(** [plugin_settings.BEPRESS_PATH], the base directory of the import. *)
Variable BEPRESS_PATH : string.

(** The network: what [requests.get(url)] does for each URL. *)
Variable network : string → http_outcome.

(** [BeautifulSoup(text, "html.parser").find("a", id="pdf")]: the attributes
    of the anchor found in the page, or [None]. *)
Variable find_pdf_anchor : string → option (gmap string string).

(** [django.template.loader.render_to_string(template, context)]. *)
Variable render_to_string : string → gmap string (gmap string pyval) → string.

(** The working directory of the process, from which relative paths start;
    the module never changes it. It is a directory, and so are the
    directories above it: a world is expected to hold them. *)
Variable cwd : Location.

(** The directory from which the parts of a path are followed: the working
    directory for a path without root, the root directory otherwise. *)
Definition base_of (root : string) : Location :=
  if decide (root = "") then cwd else [].

Definition path_base (p : PurePath) : Location := base_of (path_root p).

(** [os.mkdir(path)]: the directories above the last part have to exist; the
    last part has to be new. *)
Definition os_mkdir (p : PurePath) : M unit :=
  λ w,
    let fail code := (Err (OSError code (path_str p)), w) in
    match rev (path_parts p) with
    | [] => fail EEXIST
    | name :: rdir =>
        match walk (fs_dirs w) (fs_files w) (path_base p) (rev rdir) with
        | inl code => fail code
        | inr dir =>
            if decide (name = "..") then fail EEXIST
            else match entry_kind (fs_dirs w) (fs_files w) (dir ++ [name]) with
                 | Absent =>
                     (Ok (), World ({[ dir ++ [name] ]} ∪ fs_dirs w) (fs_files w)
                                   (stdout w) (log w) (fetched w))
                 | _ => fail EEXIST
                 end
        end
    end.

(** [path.is_dir()]: [False] also when an error stops the look-up. *)
Definition is_dir (p : PurePath) (w : world) : bool :=
  match walk (fs_dirs w) (fs_files w) (path_base p) (path_parts p) with
  | inr _ => true
  | inl _ => false
  end.

(** [path.mkdir(parents=False, exist_ok=True)]: a missing directory above is
    an error; any other error is dropped when the path is a directory. *)
Definition mkdir_exist_ok (p : PurePath) : M unit :=
  λ w, match os_mkdir p w with
       | (Ok u, w') => (Ok u, w')
       | (Err (OSError ENOENT f), w') => (Err (OSError ENOENT f), w')
       | (Err (OSError code f), w') =>
           if is_dir p w' then (Ok (), w') else (Err (OSError code f), w')
       | (Err e, w') => (Err e, w')
       end.

(** [path.mkdir(parents=True, exist_ok=True)] for the path with the given
    root and the parts [rev rparts]: when a directory above is missing, the
    parent is made in the same way and the path is made again. *)
Fixpoint mkdir_parents_rev (root : string) (rparts : list string) : M unit :=
  λ w,
    let p := MkPath root (rev rparts) in
    match os_mkdir p w with
    | (Ok u, w') => (Ok u, w')
    | (Err (OSError ENOENT f), w') =>
        match rparts with
        | [] => (Err (OSError ENOENT f), w')
        | _ :: rparent =>
            (mkdir_parents_rev root rparent;; mkdir_exist_ok p) w'
        end
    | (Err (OSError code f), w') =>
        if is_dir p w' then (Ok (), w') else (Err (OSError code f), w')
    | (Err e, w') => (Err e, w')
    end.

(** [path.mkdir(parents=True, exist_ok=True)]. *)
Definition mkdir_parents (p : PurePath) : M unit :=
  mkdir_parents_rev (path_root p) (rev (path_parts p)).

(** [with open(str(path), "w") as f: f.write(text)]: the directories above
    the last part have to exist; the file is made or its content replaced. *)
Definition open_write (p : PurePath) (text : string) : M unit :=
  λ w,
    let fail code := (Err (OSError code (path_str p)), w) in
    match rev (path_parts p) with
    | [] => fail EISDIR
    | name :: rdir =>
        match walk (fs_dirs w) (fs_files w) (path_base p) (rev rdir) with
        | inl code => fail code
        | inr dir =>
            if decide (name = "..") then fail EISDIR
            else match entry_kind (fs_dirs w) (fs_files w) (dir ++ [name]) with
                 | Dir => fail EISDIR
                 | _ =>
                     (Ok (), World (fs_dirs w)
                                   (<[ dir ++ [name] := text ]> (fs_files w))
                                   (stdout w) (log w) (fetched w))
                 end
        end
    end.

(** [requests.get(url)]: the request is recorded in the world. *)
Definition requests_get (url : string) : M http_outcome :=
  λ w, (Ok (network url),
        World (fs_dirs w) (fs_files w) (stdout w) (log w) (fetched w ++ [url])).

(** Lines 122-136 of [get_fulltext_url]: the scrape of the article page, run
    when the row has no full-text URL. It returns the new value of [url]. *)
Definition scrape_fulltext_url (row : Row) (url : option string)
    : M (option string) :=
  calc_url ← getitem row "calc_url";
  logger INFO (Py.format_s "Fetching article from %s" calc_url);;
  calc_url ← getitem row "calc_url";
  response ← requests_get calc_url;
  match response with
  | RequestException exc =>
      logger WARNING (Py.format_s "Failed to extract PDF URL: %s" exc);;
      mret url
  | Response ok text =>
      if ok then
        match find_pdf_anchor text with
        | Some attrs =>
            href ← getitem attrs "href";
            logger DEBUG (Py.format_s "Extracted fulltext url %s" href);;
            mret (Some href)
        | None =>
            logger WARNING "No fulltext url found";;
            mret url
        end
      else mret url
  end.

(** Lines 138-142 of [get_fulltext_url]: the [unstamped=1] query flag. *)
Definition add_unstamped (url : option string) (unstamped : bool)
    : option string :=
  match url with
  | Some u =>
      if Py.truthy u && unstamped then
        if Py.contains "?" u then Some (u +:+ "&unstamped=1")
        else Some (u +:+ "?unstamped=1")
      else url
  | None => url
  end.

(** [get_fulltext_url(row, unstamped=True, scrape=True)]. *)
Definition get_fulltext_url (row : Row) (unstamped scrape : bool)
    : M (option string) :=
  let url := row !! "fulltext_url" in
  url ← (if negb (Py.truthy_opt url) && scrape
            && Py.truthy_opt (row !! "calc_url")
         then scrape_fulltext_url row url
         else mret url);
  mret (add_unstamped url unstamped).

(** [parse_article_metadata(row)]: the keyword arguments of [dict] are
    evaluated from left to right and then laid over the copy of the row. *)
Definition parse_article_metadata (row : Row) : M (gmap string pyval) :=
  disciplines ← getitem row "disciplines";
  let keywords := Py.split ";" disciplines in
  fulltext_url ← get_fulltext_url row true true;
  article_id ← getitem row "context_key";
  let language := default "en" (row !! "language") in
  let peer_reviewed := default (PyBool false) (PyStr <$> row !! "peer_reviewed") in
  mret (Py.dict (PyStr <$> row)
          [ ("keywords", PyList keywords);
            ("fulltext_url", of_option fulltext_url);
            ("article_id", PyStr article_id);
            ("language", PyStr language);
            ("peer_reviewed", peer_reviewed) ]).

(** [parse_row(row)]. *)
Definition parse_row (row : Row) : M (gmap string pyval) :=
  article_dict ← parse_article_metadata row;
  mret (<["authors" := PyDicts (parse_authors row)]> article_dict).

(** [render_xml(parsed)]. *)
Definition render_xml (parsed : gmap string pyval) : string :=
  let template := "bepress/xml/metadata.xml" in
  let context := {["article" := parsed]} in
  render_to_string template context.

(** [row.get("article_id") or row["context_key"]]. *)
Definition output_id (row : Row) : M string :=
  match row !! "article_id" with
  | Some a => if Py.truthy a then mret a else getitem row "context_key"
  | None => getitem row "context_key"
  end.

(** [pathlib.Path(BEPRESS_PATH, row["issue"], id, "metadata.xml")]. *)
Definition output_path (issue id : string) : PurePath :=
  Path [BEPRESS_PATH; issue; id; "metadata.xml"].

(** The body of the loop of [csv_to_xml] for one row. *)
Definition csv_to_xml_row (commit : bool) (row : Row) : M unit :=
  parsed ← parse_row row;
  let xml := render_xml parsed in
  id ← output_id row;
  issue ← getitem row "issue";
  let file_path := output_path issue id in
  if commit then
    logger INFO (Py.format_s "Writing to %s" (path_str file_path));;
    mkdir_parents (path_parent file_path);;
    open_write file_path xml
  else print xml.

(** [csv_to_xml(reader, commit=True)]: [reader] is the sequence of rows the
    CSV reader yields; an exception in one row ends the loop. *)
Fixpoint csv_to_xml (reader : list Row) (commit : bool) : M unit :=
  match reader with
  | [] => mret ()
  | row :: rest => csv_to_xml_row commit row;; csv_to_xml rest commit
  end.


(** ** Facts about the string primitives *)

Lemma truthy_true (s : string) : Py.truthy s = true ↔ s ≠ "".
Proof. destruct s; simpl; split; congruence. Qed.

Lemma truthy_false (s : string) : Py.truthy s = false ↔ s = "".
Proof. destruct s; simpl; split; congruence. Qed.

Lemma truthy_opt_false (o : option string) :
  Py.truthy_opt o = false ↔ o = None ∨ o = Some "".
Proof.
  destruct o as [s|]; simpl.
  - rewrite truthy_false. split; [intros ->; by right | intros [?|?]; congruence].
  - split; [by left | done].
Qed.

Lemma append_cons a (s t : string) : String a s +:+ t = String a (s +:+ t).
Proof. reflexivity. Qed.

Lemma append_nil_r (s : string) : s +:+ "" = s.
Proof.
  induction s as [|a s IH]; [done | ]. by rewrite append_cons, IH.
Qed.

Lemma append_assoc (s1 s2 s3 : string) :
  (s1 +:+ s2) +:+ s3 = s1 +:+ (s2 +:+ s3).
Proof.
  induction s1 as [|a s1 IH]; [done | ]. by rewrite !append_cons, IH.
Qed.

Lemma split_from_cons sep cur s :
  ∃ piece rest, Py.split_from sep cur s = piece :: rest.
Proof.
  revert cur. induction s as [|a s IH]; intros cur; simpl.
  - by eexists _, _.
  - destruct (Ascii.eqb a sep); [by eexists _, _ | apply IH].
Qed.

Lemma split_length sep s : 1 ≤ length (Py.split sep s).
Proof.
  destruct (split_from_cons sep "" s) as (piece & rest & E).
  unfold Py.split. rewrite E. simpl. lia.
Qed.

(** Joining the pieces with the separator gives the string back, so [split]
    loses nothing and cuts only at separators. *)
Lemma join_split_from sep cur s :
  Py.join (String sep "") (Py.split_from sep cur s) = cur +:+ s.
Proof.
  revert cur. induction s as [|a s IH]; intros cur; simpl.
  - by rewrite append_nil_r.
  - destruct (Ascii.eqb_spec a sep) as [->|Hne].
    + destruct (split_from_cons sep "" s) as (piece & rest & E).
      rewrite E.
      change (Py.join (String sep "") (cur :: piece :: rest))
        with (cur +:+ String sep "" +:+ Py.join (String sep "") (piece :: rest)).
      by rewrite <- E, IH.
    + by rewrite IH, append_assoc.
Qed.

Lemma join_split sep s : Py.join (String sep "") (Py.split sep s) = s.
Proof. apply join_split_from. Qed.

(** No piece of a split contains the separator. *)
Lemma split_from_no_sep sep cur s :
  Py.contains sep cur = false →
  Forall (λ piece, Py.contains sep piece = false) (Py.split_from sep cur s).
Proof.
  assert (Happ : ∀ c a, Py.contains sep c = false → Ascii.eqb a sep = false →
                        Py.contains sep (c +:+ String a "") = false).
  { intros c a. induction c as [|b c IH]; simpl; intros Hc Ha.
    - by rewrite Ha.
    - destruct (Ascii.eqb b sep); [done | by apply IH]. }
  revert cur. induction s as [|a s IH]; intros cur Hcur; simpl.
  - by constructor.
  - destruct (Ascii.eqb a sep) eqn:Ha.
    + constructor; [done | by apply IH].
    + apply IH. by apply Happ.
Qed.

(** ** Facts about the author extraction *)

Lemma author_field_lookup row i acc src d0 d v :
  acc !! d0 = None →
  author_field row i acc (src, d0) !! d = Some v ↔
    acc !! d = Some v ∨
    (d = d0 ∧ row !! Py.format_d src i = Some v ∧ v ≠ "").
Proof.
  intros Hacc. unfold author_field.
  destruct (row !! Py.format_d src i) as [v0|] eqn:Hrow.
  - destruct (Py.truthy v0) eqn:Ht.
    + apply truthy_true in Ht.
      destruct (decide (d = d0)) as [->|Hne].
      * rewrite lookup_insert_eq. split.
        -- intros [= ->]. by right.
        -- intros [?|(_ & [= ->] & _)]; [congruence | done].
      * rewrite lookup_insert_ne by done. split; [by left | ].
        intros [?|(? & _)]; [done | congruence].
    + apply truthy_false in Ht. subst v0. split; [by left | ].
      intros [?|(_ & [= <-] & ?)]; done.
  - split; [by left | ]. intros [?|(_ & ? & _)]; [done | congruence].
Qed.

Lemma author_field_dom row i acc src d0 d :
  d ≠ d0 → acc !! d = None → author_field row i acc (src, d0) !! d = None.
Proof.
  intros Hne Hacc. unfold author_field.
  destruct (row !! Py.format_d src i) as [v0|]; [|done].
  destruct (Py.truthy v0); [by rewrite lookup_insert_ne | done].
Qed.

Lemma author_fold_lookup row i fields acc d v :
  NoDup fields.*2 →
  (∀ d', d' ∈ fields.*2 → acc !! d' = None) →
  foldl (author_field row i) acc fields !! d = Some v ↔
    acc !! d = Some v ∨
    ∃ src, (src, d) ∈ fields ∧ row !! Py.format_d src i = Some v ∧ v ≠ "".
Proof.
  revert acc. induction fields as [|[src d0] fields IH]; intros acc Hnd Hacc.
  - simpl. split; [by left | ]. intros [?|(src & Hin & _)]; [done | ].
    by apply elem_of_nil in Hin.
  - cbn [foldl]. rewrite fmap_cons in Hnd, Hacc. cbn [snd] in Hnd, Hacc.
    apply NoDup_cons in Hnd as [Hd0 Hnd].
    rewrite IH; [ | done | ].
    + rewrite author_field_lookup by (apply Hacc; left). split.
      * intros [[?|(-> & ? & ?)]|(src' & Hin & ? & ?)].
        -- by left.
        -- right. exists src. split; [left | done].
        -- right. exists src'. split; [by right | done].
      * intros [?|(src' & Hin & ? & ?)]; [by left; left | ].
        apply elem_of_cons in Hin as [[= -> ->]|Hin].
        -- left. by right.
        -- right. by exists src'.
    + intros d' Hd'. apply author_field_dom.
      * intros ->. done.
      * apply Hacc. by right.
Qed.

Lemma AUTHOR_FIELDS_MAP_NoDup : NoDup AUTHOR_FIELDS_MAP.*2.
Proof. apply (bool_decide_unpack _). by vm_compute. Qed.

(** What a candidate author dictionary holds, for any list of field pairs
    with distinct destinations. *)
Lemma build_author_with_lookup fields row i d v :
  NoDup fields.*2 →
  build_author_with fields row i !! d = Some v ↔
    ∃ src, (src, d) ∈ fields ∧ row !! Py.format_d src i = Some v ∧ v ≠ "".
Proof.
  intros Hnd. unfold build_author_with.
  rewrite author_fold_lookup; [ | done | intros; apply lookup_empty].
  rewrite lookup_empty. split; [by intros [?|?] | by right].
Qed.

(** The iteration order of the set [AUTHOR_FIELDS_MAP] does not matter. *)
Lemma build_author_perm fields row i :
  fields ≡ₚ AUTHOR_FIELDS_MAP →
  build_author_with fields row i = build_author row i.
Proof.
  intros Hp. apply map_eq. intros d. apply option_eq. intros v.
  unfold build_author.
  rewrite !build_author_with_lookup.
  - by setoid_rewrite Hp.
  - apply AUTHOR_FIELDS_MAP_NoDup.
  - rewrite Hp. apply AUTHOR_FIELDS_MAP_NoDup.
Qed.

Lemma dict_truthy_true (d : Author) : dict_truthy d = true ↔ d ≠ ∅.
Proof. unfold dict_truthy. by rewrite bool_decide_eq_true. Qed.

Lemma dict_truthy_false (d : Author) : dict_truthy d = false ↔ d = ∅.
Proof.
  unfold dict_truthy. rewrite bool_decide_eq_false.
  split; [apply dec_stable | by intros ->; auto].
Qed.

(** The loop keeps the longest prefix of the indices whose candidates are all
    non-blank. *)
Lemma parse_authors_loop_prefix row indices authors :
  ∃ k, k ≤ length indices ∧
       parse_authors_loop row indices authors
         = authors ++ (build_author row <$> take k indices) ∧
       Forall (λ i, build_author row i ≠ ∅) (take k indices) ∧
       (∀ i, indices !! k = Some i → build_author row i = ∅).
Proof.
  revert authors. induction indices as [|i indices IH]; intros authors; simpl.
  - exists 0. simpl. rewrite app_nil_r. repeat split; [lia | constructor | done].
  - destruct (dict_truthy (build_author row i)) eqn:Ht.
    + apply dict_truthy_true in Ht.
      destruct (IH (authors ++ [build_author row i])) as (k & Hk & E & Hall & Hstop).
      exists (S k). simpl. repeat split.
      * lia.
      * by rewrite E, <- app_assoc.
      * by constructor.
      * done.
    + apply dict_truthy_false in Ht.
      exists 0. simpl. rewrite app_nil_r. repeat split; [lia | constructor | ].
      by intros ? [= <-].
Qed.

(** C1. [parse_authors] probes the author indices 1, 2, ... upwards and at
    most up to 5. The candidate of an index holds a destination attribute
    exactly when its source field is present and non-empty in the row, with
    that value. The result is the list of the candidates of the indices
    [1..k] for the first [k] whose next index is blank (or [k = 5]): it has
    at most 5 elements, none of them blank, and no author of an index at or
    after a blank index, whatever the later fields hold. *)
Theorem parse_authors_stops_at_first_blank (row : Row) :
  (∀ i dest v,
     build_author row i !! dest = Some v ↔
       ∃ src, (src, dest) ∈ AUTHOR_FIELDS_MAP ∧
              row !! Py.format_d src i = Some v ∧ v ≠ "") ∧
  (∃ k, k ≤ 5 ∧
        parse_authors row = build_author row <$> seq 1 k ∧
        (∀ i, 1 ≤ i ≤ k → build_author row i ≠ ∅) ∧
        (k < 5 → build_author row (S k) = ∅)) ∧
  length (parse_authors row) ≤ 5 ∧
  Forall (λ author, author ≠ ∅) (parse_authors row) ∧
  (∀ j, 1 ≤ j ≤ 5 → build_author row j = ∅ → length (parse_authors row) < j).
Proof.
  assert (Hk : ∃ k, k ≤ 5 ∧
        parse_authors row = build_author row <$> seq 1 k ∧
        (∀ i, 1 ≤ i ≤ k → build_author row i ≠ ∅) ∧
        (k < 5 → build_author row (S k) = ∅)).
  { destruct (parse_authors_loop_prefix row (seq 1 5) [])
      as (k & Hk & E & Hall & Hstop).
    rewrite length_seq in Hk. rewrite take_seq in E, Hall.
    replace (k `min` 5) with k in E, Hall by lia.
    exists k. split_and!; [done | done | | ].
    - rewrite Forall_seq in Hall. intros i Hi. apply Hall. lia.
    - intros Hlt. apply Hstop. by rewrite lookup_seq_lt. }
  split; [ | split; [exact Hk | ] ].
  { intros i dest v. apply build_author_with_lookup, AUTHOR_FIELDS_MAP_NoDup. }
  destruct Hk as (k & Hk & E & Hall & Hstop).
  rewrite E, length_fmap, length_seq. split_and!.
  - done.
  - rewrite Forall_fmap, Forall_seq. intros i Hi. apply Hall. lia.
  - intros j Hj Hblank.
    destruct (decide (j ≤ k)) as [Hle|Hgt]; [ | lia].
    by destruct (Hall j ltac:(lia)).
Qed.

(** ** Running the monad *)

Lemma M_bind_run {A B} (m : M A) (f : A → M B) (w : world) :
  (m ≫= f) w = match m w with
               | (Ok a, w') => f a w'
               | (Err e, w') => (Err e, w')
               end.
Proof. reflexivity. Qed.

Lemma M_ret_run {A} (a : A) (w : world) : mret (M:=M) a w = (Ok a, w).
Proof. reflexivity. Qed.

Lemma getitem_Some d key v : d !! key = Some v → getitem d key = mret v.
Proof. intros H. unfold getitem. by rewrite H. Qed.

Lemma getitem_None d key : d !! key = None → getitem d key = raise (KeyError key).
Proof. intros H. unfold getitem. by rewrite H. Qed.

Ltac run_M :=
  repeat (rewrite ?M_bind_run, ?M_ret_run;
          unfold raise, logger, print, requests_get; cbn [fst snd]).

(** ** Facts about the full-text URL *)

Lemma add_unstamped_false url : add_unstamped url false = url.
Proof.
  destruct url as [u|]; [ | done]. unfold add_unstamped.
  by rewrite andb_false_r.
Qed.

Lemma add_unstamped_falsy url unstamped :
  Py.truthy_opt url = false → add_unstamped url unstamped = url.
Proof.
  destruct url as [u|]; [ | done]. simpl. intros H.
  unfold add_unstamped. by rewrite H.
Qed.

Lemma add_unstamped_truthy u :
  u ≠ "" →
  add_unstamped (Some u) true
    = Some (u +:+ (if Py.contains "?" u then "&" else "?") +:+ "unstamped=1").
Proof.
  intros Hu. apply truthy_true in Hu. unfold add_unstamped. rewrite Hu.
  simpl. by destruct (Py.contains "?" u).
Qed.

(** The value of [url] before the flag is added: the result of the call with
    [unstamped=False]. The call with any [unstamped] does the same to the
    world and adds the flag to that value. *)
Lemma get_fulltext_url_unstamped row unstamped scrape w :
  get_fulltext_url row unstamped scrape w =
    match get_fulltext_url row false scrape w with
    | (Ok url, w') => (Ok (add_unstamped url unstamped), w')
    | (Err e, w') => (Err e, w')
    end.
Proof.
  unfold get_fulltext_url. rewrite !M_bind_run.
  destruct (_ : M (option string)) as [[url|e] w']; [ | done].
  rewrite !M_ret_run. by rewrite add_unstamped_false.
Qed.

(** A row with a full-text URL of its own is not scraped. *)
Lemma get_fulltext_url_explicit row u unstamped scrape w :
  row !! "fulltext_url" = Some u → u ≠ "" →
  get_fulltext_url row unstamped scrape w
    = (Ok (add_unstamped (Some u) unstamped), w).
Proof.
  intros Hrow Hu. apply truthy_true in Hu.
  unfold get_fulltext_url. rewrite Hrow. cbn [Py.truthy_opt]. rewrite Hu.
  cbn [negb andb]. by rewrite M_bind_run, M_ret_run.
Qed.

(** Without a URL of its own, and without a scrape, the row's value comes
    back as it is. *)
Lemma get_fulltext_url_no_scrape row unstamped scrape w :
  Py.truthy_opt (row !! "fulltext_url") = false →
  scrape && Py.truthy_opt (row !! "calc_url") = false →
  get_fulltext_url row unstamped scrape w = (Ok (row !! "fulltext_url"), w).
Proof.
  intros Hurl Hguard. unfold get_fulltext_url.
  rewrite Hurl. cbn [negb]. rewrite andb_true_l, Hguard.
  rewrite M_bind_run, M_ret_run. by rewrite add_unstamped_falsy.
Qed.

(** What the scrape does, case by case. *)
Lemma scrape_fulltext_url_run row url c w :
  row !! "calc_url" = Some c →
  let w1 := World (fs_dirs w) (fs_files w) (stdout w)
                  (log w ++ [(INFO, Py.format_s "Fetching article from %s" c)])
                  (fetched w ++ [c]) in
  let warn msg := World (fs_dirs w1) (fs_files w1) (stdout w1)
                        (log w1 ++ [(WARNING, msg)]) (fetched w1) in
  scrape_fulltext_url row url w =
    match network c with
    | RequestException exc =>
        (Ok url, warn (Py.format_s "Failed to extract PDF URL: %s" exc))
    | Response false _ => (Ok url, w1)
    | Response true text =>
        match find_pdf_anchor text with
        | None => (Ok url, warn "No fulltext url found")
        | Some attrs =>
            match attrs !! "href" with
            | None => (Err (KeyError "href"), w1)
            | Some href =>
                (Ok (Some href),
                 World (fs_dirs w1) (fs_files w1) (stdout w1)
                       (log w1 ++ [(DEBUG, Py.format_s "Extracted fulltext url %s" href)])
                       (fetched w1))
            end
        end
    end.
Proof.
  intros Hc w1 warn. unfold scrape_fulltext_url.
  rewrite (getitem_Some _ _ _ Hc). run_M.
  destruct (network c) as [exc|[|] text]; run_M; [done | | done].
  destruct (find_pdf_anchor text) as [attrs|]; run_M; [ | done].
  unfold getitem. destruct (attrs !! "href") as [href|]; run_M; done.
Qed.

(** The scrape is run exactly when the row has no URL of its own, scraping is
    allowed and the row has a non-empty calculated URL. *)
Lemma get_fulltext_url_scrape row c unstamped w :
  Py.truthy_opt (row !! "fulltext_url") = false →
  row !! "calc_url" = Some c → c ≠ "" →
  get_fulltext_url row unstamped true w =
    match scrape_fulltext_url row (row !! "fulltext_url") w with
    | (Ok url, w') => (Ok (add_unstamped url unstamped), w')
    | (Err e, w') => (Err e, w')
    end.
Proof.
  intros Hurl Hc Hne. apply truthy_true in Hne.
  unfold get_fulltext_url. rewrite Hurl, Hc. cbn [Py.truthy_opt]. rewrite Hne.
  cbn [negb andb]. rewrite M_bind_run.
  destruct (scrape_fulltext_url _ _ _) as [[url|e] w']; by rewrite ?M_ret_run.
Qed.

(** The only exception that leaves [get_fulltext_url] is the [KeyError] of an
    anchor without [href]. *)
Lemma get_fulltext_url_Err row unstamped scrape w e w' :
  get_fulltext_url row unstamped scrape w = (Err e, w') → e = KeyError "href".
Proof.
  destruct (Py.truthy_opt (row !! "fulltext_url")) eqn:Hurl.
  - destruct (row !! "fulltext_url") as [u|] eqn:Hrow; [ | done].
    simpl in Hurl. apply truthy_true in Hurl.
    by rewrite (get_fulltext_url_explicit _ _ _ _ _ Hrow Hurl).
  - destruct (scrape && Py.truthy_opt (row !! "calc_url")) eqn:Hguard.
    + apply andb_true_iff in Hguard as [-> Hc].
      destruct (row !! "calc_url") as [c|] eqn:Hrow; [ | done].
      simpl in Hc. apply truthy_true in Hc.
      rewrite (get_fulltext_url_scrape _ _ _ _ Hurl Hrow Hc).
      rewrite (scrape_fulltext_url_run _ _ _ _ Hrow).
      destruct (network c) as [exc|[|] text]; [done | | done].
      destruct (find_pdf_anchor text) as [attrs|]; [ | done].
      destruct (attrs !! "href"); [done | by intros [= <- _]].
    + by rewrite get_fulltext_url_no_scrape.
Qed.


(** C2. For a row whose [fulltext_url] field is present and non-empty,
    [get_fulltext_url] with its default arguments returns that URL followed
    by the [unstamped=1] flag, and leaves the world as it found it: no
    request is sent. *)
Theorem explicit_url_returned_without_fetch (row : Row) (u : string) (w : world) :
  row !! "fulltext_url" = Some u → u ≠ "" →
  ∃ w',
    get_fulltext_url row true true w
      = (Ok (Some (u +:+ (if Py.contains "?" u then "&" else "?")
                     +:+ "unstamped=1")), w') ∧
    fetched w' = fetched w ∧ w' = w.
Proof.
  intros Hrow Hu. exists w.
  rewrite (get_fulltext_url_explicit _ _ _ _ _ Hrow Hu).
  by rewrite add_unstamped_truthy.
Qed.

(** C3, as amended. For a row without a full-text URL of its own (absent or
    empty) and with a non-empty [calc_url], when scraping is allowed and the
    request for [calc_url] returns an OK response whose page has an anchor
    with id [pdf] and href [X]: [get_fulltext_url] sends that one request and
    returns [X] followed by the [unstamped=1] flag when [X] is not empty, and
    the empty string as it is when [X] is empty. *)
Theorem scraped_url_stamped_when_not_empty
    (row : Row) (c text X : string) (attrs : gmap string string) (w : world) :
  row !! "fulltext_url" = None ∨ row !! "fulltext_url" = Some "" →
  row !! "calc_url" = Some c → c ≠ "" →
  network c = Response true text →
  find_pdf_anchor text = Some attrs →
  attrs !! "href" = Some X →
  ∃ w',
    get_fulltext_url row true true w
      = (Ok (Some (if Py.truthy X
                   then X +:+ (if Py.contains "?" X then "&" else "?")
                          +:+ "unstamped=1"
                   else "")), w') ∧
    fetched w' = fetched w ++ [c].
Proof.
  intros Hurl Hc Hne Hnet Hfind Hhref.
  apply truthy_opt_false in Hurl.
  rewrite (get_fulltext_url_scrape _ _ _ _ Hurl Hc Hne).
  rewrite (scrape_fulltext_url_run _ _ _ _ Hc). cbn zeta.
  rewrite Hnet, Hfind, Hhref.
  destruct (Py.truthy X) eqn:HX.
  - apply truthy_true in HX. rewrite (add_unstamped_truthy _ HX).
    eexists. split; reflexivity.
  - apply truthy_false in HX. subst X. eexists. split; reflexivity.
Qed.

(** C4. Whatever URL [get_fulltext_url] has resolved (the value it returns
    with [unstamped=False]), the call with [unstamped=True] does the same to
    the world and returns that URL followed by [&unstamped=1] when it
    contains a [?] and by [?unstamped=1] otherwise; when no URL was resolved
    ([None] or the empty string) it returns that value with nothing added.
    So [http://x/y?foo=1] becomes [http://x/y?foo=1&unstamped=1] and
    [http://x/y] becomes [http://x/y?unstamped=1]. *)
Theorem unstamped_flag_separator (row : Row) (scrape : bool) (w : world) :
  match get_fulltext_url row false scrape w with
  | (Ok (Some u), w') =>
      get_fulltext_url row true scrape w
        = (Ok (Some (if Py.truthy u
                     then u +:+ (if Py.contains "?" u then "&" else "?")
                            +:+ "unstamped=1"
                     else u)), w')
  | (Ok None, w') => get_fulltext_url row true scrape w = (Ok None, w')
  | (Err e, w') => get_fulltext_url row true scrape w = (Err e, w')
  end ∧
  get_fulltext_url {["fulltext_url" := "http://x/y?foo=1"]} true scrape w
    = (Ok (Some "http://x/y?foo=1&unstamped=1"), w) ∧
  get_fulltext_url {["fulltext_url" := "http://x/y"]} true scrape w
    = (Ok (Some "http://x/y?unstamped=1"), w).
Proof.
  split; [ | split].
  - rewrite (get_fulltext_url_unstamped row true scrape w).
    destruct (get_fulltext_url row false scrape w) as [[[u|]|e] w']; [ | done..].
    do 2 f_equal. destruct (Py.truthy u) eqn:Hu.
    + apply truthy_true in Hu. by apply add_unstamped_truthy.
    + apply add_unstamped_falsy. done.
  - by rewrite (get_fulltext_url_explicit _ "http://x/y?foo=1").
  - by rewrite (get_fulltext_url_explicit _ "http://x/y").
Qed.

(** C5. When the scrape of a row fails (the request raises a
    [RequestException], or the response is not OK, or the page has no anchor
    with id [pdf]), [get_fulltext_url] raises nothing: it returns the row's
    own value of [fulltext_url], which is [None] or the empty string. A raised
    [RequestException] is logged as a warning after the record of the
    request. *)
Theorem resolution_failure_returns_empty
    (row : Row) (c : string) (unstamped : bool) (w : world) :
  row !! "fulltext_url" = None ∨ row !! "fulltext_url" = Some "" →
  row !! "calc_url" = Some c → c ≠ "" →
  (∃ exc, network c = RequestException exc) ∨
  (∃ text, network c = Response false text) ∨
  (∃ text, network c = Response true text ∧ find_pdf_anchor text = None) →
  ∃ w',
    get_fulltext_url row unstamped true w = (Ok (row !! "fulltext_url"), w') ∧
    fetched w' = fetched w ++ [c] ∧
    (∀ exc, network c = RequestException exc →
       log w' = log w
                ++ [(INFO, Py.format_s "Fetching article from %s" c)]
                ++ [(WARNING, Py.format_s "Failed to extract PDF URL: %s" exc)]).
Proof.
  intros Hurl Hc Hne Hfail.
  assert (Hfalsy := proj2 (truthy_opt_false _) Hurl).
  rewrite (get_fulltext_url_scrape _ _ _ _ Hfalsy Hc Hne).
  rewrite (scrape_fulltext_url_run _ _ _ _ Hc). cbn zeta.
  destruct Hfail as [[exc Hnet]|[[text Hnet]|(text & Hnet & Hfind)]];
    rewrite Hnet; [ | | rewrite Hfind];
    (eexists; split_and!;
       [ by rewrite add_unstamped_falsy | reflexivity | ]); cbn [log].
  - intros exc' [= <-]. by rewrite <- app_assoc.
  - intros exc' [=].
  - intros exc' [=].
Qed.


(** ** Facts about the article dictionary *)

(** [parse_article_metadata] case by case, in the order in which the keyword
    arguments are evaluated. *)
Lemma parse_article_metadata_run row w :
  parse_article_metadata row w =
    match row !! "disciplines" with
    | None => (Err (KeyError "disciplines"), w)
    | Some disciplines =>
        match get_fulltext_url row true true w with
        | (Err e, w') => (Err e, w')
        | (Ok fulltext_url, w') =>
            match row !! "context_key" with
            | None => (Err (KeyError "context_key"), w')
            | Some context_key =>
                (Ok (Py.dict (PyStr <$> row)
                       [ ("keywords", PyList (Py.split ";" disciplines));
                         ("fulltext_url", of_option fulltext_url);
                         ("article_id", PyStr context_key);
                         ("language", PyStr (default "en" (row !! "language")));
                         ("peer_reviewed",
                          default (PyBool false) (PyStr <$> row !! "peer_reviewed")) ]),
                 w')
            end
        end
    end.
Proof.
  unfold parse_article_metadata, getitem.
  destruct (row !! "disciplines") as [d|]; [ | done]. run_M.
  destruct (get_fulltext_url row true true w) as [[url|e] w']; [ | done].
  destruct (row !! "context_key") as [ck|]; done.
Qed.

Lemma parse_row_run row w :
  parse_row row w =
    match parse_article_metadata row w with
    | (Ok article_dict, w') =>
        (Ok (<["authors" := PyDicts (parse_authors row)]> article_dict), w')
    | (Err e, w') => (Err e, w')
    end.
Proof.
  unfold parse_row. rewrite M_bind_run.
  by destruct (parse_article_metadata row w) as [[d|e] w'].
Qed.

(** The derived keys hold the keyword arguments. *)
Lemma article_dict_lookup_derived (m : gmap string pyval) kw url ck lang pr :
  let d := Py.dict m [ ("keywords", kw); ("fulltext_url", url);
                       ("article_id", ck); ("language", lang);
                       ("peer_reviewed", pr) ] in
  d !! "keywords" = Some kw ∧ d !! "fulltext_url" = Some url ∧
  d !! "article_id" = Some ck ∧ d !! "language" = Some lang ∧
  d !! "peer_reviewed" = Some pr.
Proof.
  unfold Py.dict. cbn [foldl fst snd].
  split_and!; repeat (rewrite lookup_insert_ne by done);
    by rewrite lookup_insert_eq.
Qed.

Lemma parse_article_metadata_Ok row w article_dict w' :
  parse_article_metadata row w = (Ok article_dict, w') →
  ∃ disciplines fulltext_url context_key,
    row !! "disciplines" = Some disciplines ∧
    get_fulltext_url row true true w = (Ok fulltext_url, w') ∧
    row !! "context_key" = Some context_key ∧
    article_dict =
      Py.dict (PyStr <$> row)
        [ ("keywords", PyList (Py.split ";" disciplines));
          ("fulltext_url", of_option fulltext_url);
          ("article_id", PyStr context_key);
          ("language", PyStr (default "en" (row !! "language")));
          ("peer_reviewed",
           default (PyBool false) (PyStr <$> row !! "peer_reviewed")) ].
Proof.
  rewrite parse_article_metadata_run.
  destruct (row !! "disciplines") as [d|]; [ | done].
  destruct (get_fulltext_url row true true w) as [[url|e] w1]; [ | done].
  destruct (row !! "context_key") as [ck|]; [ | done].
  intros [= <- <-]. by exists d, url, ck.
Qed.

Lemma parse_row_Ok row w parsed w' :
  parse_row row w = (Ok parsed, w') →
  ∃ article_dict,
    parse_article_metadata row w = (Ok article_dict, w') ∧
    parsed = <["authors" := PyDicts (parse_authors row)]> article_dict.
Proof.
  rewrite parse_row_run.
  destruct (parse_article_metadata row w) as [[d|e] w1]; [ | done].
  intros [= <- <-]. by exists d.
Qed.

(** C6, as amended. [parse_article_metadata] raises a [KeyError] in exactly
    three cases, checked in this order: the row has no [disciplines] field;
    the full-text resolution raises (the [KeyError] of a scraped anchor
    without href); the row has no [context_key] field. In every other case,
    that is for every row with [disciplines] and [context_key] whose
    resolution returns, it returns a dictionary. The field [article_id] of
    the row plays no part. *)
Theorem mapping_fails_without_disciplines_or_context_key (row : Row) (w : world) :
  match row !! "disciplines" with
  | None => parse_article_metadata row w = (Err (KeyError "disciplines"), w)
  | Some _ =>
      match get_fulltext_url row true true w with
      | (Err e, w') =>
          e = KeyError "href" ∧ parse_article_metadata row w = (Err e, w')
      | (Ok _, w') =>
          match row !! "context_key" with
          | None =>
              parse_article_metadata row w = (Err (KeyError "context_key"), w')
          | Some _ =>
              ∃ article_dict,
                parse_article_metadata row w = (Ok article_dict, w')
          end
      end
  end.
Proof.
  rewrite parse_article_metadata_run.
  destruct (row !! "disciplines") as [d|]; [ | done].
  destruct (get_fulltext_url row true true w) as [[url|e] w'] eqn:Hurl.
  - destruct (row !! "context_key") as [ck|]; [by eexists | done].
  - split; [ | done]. by eapply get_fulltext_url_Err.
Qed.

(** C7, as amended. When [parse_row] succeeds, every field of the row whose
    name is not [keywords], [fulltext_url], [article_id] or [authors] is in
    the article dictionary with the value it has in the row (so are
    [language] and [peer_reviewed] when the row has them), and the keys of
    the dictionary are the keys of the row together with the six derived
    ones: no field is dropped. Under the four names the dictionary holds
    the derived value, whatever the row holds there: the pieces of the
    disciplines, the result of [get_fulltext_url], the context key and the
    list of [parse_authors]; [language] and [peer_reviewed] hold their
    defaults when the row has no such field. *)
Theorem row_fields_carried_except_overlaid
    (row : Row) (w w' : world) (parsed : gmap string pyval) :
  parse_row row w = (Ok parsed, w') →
  (∀ k v, row !! k = Some v →
          k ∉ ["keywords"; "fulltext_url"; "article_id"; "authors"] →
          parsed !! k = Some (PyStr v)) ∧
  dom parsed = dom row ∪ list_to_set ["keywords"; "fulltext_url"; "article_id";
                                      "language"; "peer_reviewed"; "authors"] ∧
  ∃ disciplines fulltext_url context_key,
    row !! "disciplines" = Some disciplines ∧
    get_fulltext_url row true true w = (Ok fulltext_url, w') ∧
    row !! "context_key" = Some context_key ∧
    parsed !! "keywords" = Some (PyList (Py.split ";" disciplines)) ∧
    parsed !! "fulltext_url" = Some (match fulltext_url with
                                     | Some u => PyStr u
                                     | None => PyNone
                                     end) ∧
    parsed !! "article_id" = Some (PyStr context_key) ∧
    parsed !! "authors" = Some (PyDicts (parse_authors row)) ∧
    (row !! "language" = None → parsed !! "language" = Some (PyStr "en")) ∧
    (row !! "peer_reviewed" = None →
     parsed !! "peer_reviewed" = Some (PyBool false)).
Proof.
  intros (article_dict & (d & url & ck & Hd & Hurl & Hck & ->)
            %parse_article_metadata_Ok & ->)%parse_row_Ok.
  split_and!.
  - intros k v Hk Hnot.
    rewrite !not_elem_of_cons in Hnot. destruct Hnot as (? & ? & ? & ? & _).
    rewrite lookup_insert_ne by done.
    unfold Py.dict. cbn [foldl fst snd].
    destruct (decide (k = "peer_reviewed")) as [->|?].
    { by rewrite lookup_insert_eq, Hk. }
    rewrite lookup_insert_ne by done.
    destruct (decide (k = "language")) as [->|?].
    { by rewrite lookup_insert_eq, Hk. }
    rewrite !lookup_insert_ne by done. by rewrite lookup_fmap, Hk.
  - unfold Py.dict. cbn [foldl fst snd].
    rewrite !dom_insert_L, dom_fmap_L. apply set_eq. intros k.
    rewrite !elem_of_union, !elem_of_singleton, elem_of_list_to_set.
    rewrite !elem_of_cons, elem_of_nil.
    clear BEPRESS_PATH render_to_string cwd. tauto.
  - match goal with
    | |- context [Py.dict ?m [(_, ?k); (_, ?u); (_, ?a); (_, ?l); (_, ?p)]] =>
        destruct (article_dict_lookup_derived m k u a l p)
          as (Hkw & Hfu & Hai & Hla & Hpr)
    end.
    exists d, url, ck. split_and!; [done | done | done | | | | | | ].
    + by rewrite lookup_insert_ne.
    + rewrite lookup_insert_ne by done. rewrite Hfu. by destruct url.
    + by rewrite lookup_insert_ne.
    + apply lookup_insert_eq.
    + intros Hnone. rewrite lookup_insert_ne by done.
      by rewrite Hla, Hnone.
    + intros Hnone. rewrite lookup_insert_ne by done.
      by rewrite Hpr, Hnone.
Qed.

(** C9. For a row with a [disciplines] field, the [keywords] of the article
    dictionary are the pieces of that field cut at every semicolon: joined
    with semicolons they give the field back, and there is always at least
    one piece; for the empty field it is the empty string alone. The
    dictionary exists whenever the row also has a [context_key] and the
    full-text resolution returns. *)
Theorem keywords_split_never_empty (row : Row) (disciplines : string) (w : world) :
  row !! "disciplines" = Some disciplines →
  1 ≤ length (Py.split ";" disciplines) ∧
  Py.join ";" (Py.split ";" disciplines) = disciplines ∧
  (disciplines = "" → Py.split ";" disciplines = [""]) ∧
  (∀ article_dict w',
     parse_article_metadata row w = (Ok article_dict, w') →
     article_dict !! "keywords" = Some (PyList (Py.split ";" disciplines))) ∧
  (∀ context_key fulltext_url w',
     row !! "context_key" = Some context_key →
     get_fulltext_url row true true w = (Ok fulltext_url, w') →
     ∃ article_dict,
       parse_article_metadata row w = (Ok article_dict, w') ∧
       article_dict !! "keywords" = Some (PyList (Py.split ";" disciplines))).
Proof.
  intros Hd. split_and!.
  - apply split_length.
  - apply join_split.
  - by intros ->.
  - intros article_dict w' (d & url & ck & Hd' & _ & _ & ->)
      %parse_article_metadata_Ok.
    rewrite Hd in Hd'. injection Hd' as <-.
    apply article_dict_lookup_derived.
  - intros ck url w' Hck Hurl. rewrite parse_article_metadata_run.
    rewrite Hd, Hurl, Hck. eexists. split; [done | ].
    apply article_dict_lookup_derived.
Qed.

(** C10. The defaults of [language] and [peer_reviewed] are used only when
    the row has no such key: otherwise the article dictionary holds the value
    of the row, also when that value is the empty string. *)
Theorem defaults_only_for_absent_keys
    (row : Row) (w w' : world) (article_dict : gmap string pyval) :
  parse_article_metadata row w = (Ok article_dict, w') →
  article_dict !! "language"
    = Some (match row !! "language" with
            | Some v => PyStr v
            | None => PyStr "en"
            end) ∧
  article_dict !! "peer_reviewed"
    = Some (match row !! "peer_reviewed" with
            | Some v => PyStr v
            | None => PyBool false
            end) ∧
  (row !! "language" = Some "" → article_dict !! "language" = Some (PyStr "")) ∧
  (row !! "peer_reviewed" = Some "" →
   article_dict !! "peer_reviewed" = Some (PyStr "")) ∧
  (∀ parsed w1, parse_row row w = (Ok parsed, w1) →
     parsed !! "language" = article_dict !! "language" ∧
     parsed !! "peer_reviewed" = article_dict !! "peer_reviewed").
Proof.
  intros Hrun.
  destruct (parse_article_metadata_Ok _ _ _ _ Hrun)
    as (d & url & ck & Hd & Hurl & Hck & ->).
  match goal with
  | |- context [Py.dict ?m [_; _; _; (_, ?l); (_, ?p)]] =>
      destruct (article_dict_lookup_derived m
                  (PyList (Py.split ";" d)) (of_option url) (PyStr ck) l p)
        as (_ & _ & _ & Hlang & Hpr)
  end.
  rewrite Hlang, Hpr. split_and!.
  - by destruct (row !! "language").
  - by destruct (row !! "peer_reviewed").
  - by intros ->.
  - by intros ->.
  - intros parsed w1 Hrow. rewrite parse_row_run, Hrun in Hrow.
    injection Hrow as <- <-.
    split; (rewrite lookup_insert_ne by done); [exact Hlang | exact Hpr].
Qed.


(** ** Facts about the batch *)

(** The full-text resolution writes to the log and sends requests; it leaves
    the disk and the standard output alone. *)
Lemma get_fulltext_url_disk row unstamped scrape w r w' :
  get_fulltext_url row unstamped scrape w = (r, w') →
  fs_dirs w' = fs_dirs w ∧ fs_files w' = fs_files w ∧ stdout w' = stdout w.
Proof.
  destruct (Py.truthy_opt (row !! "fulltext_url")) eqn:Hurl.
  - destruct (row !! "fulltext_url") as [u|] eqn:Hrow; [ | done].
    simpl in Hurl. apply truthy_true in Hurl.
    rewrite (get_fulltext_url_explicit _ _ _ _ _ Hrow Hurl). by intros [= _ <-].
  - destruct (scrape && Py.truthy_opt (row !! "calc_url")) eqn:Hguard.
    + apply andb_true_iff in Hguard as [-> Hc].
      destruct (row !! "calc_url") as [c|] eqn:Hrow; [ | done].
      simpl in Hc. apply truthy_true in Hc.
      rewrite (get_fulltext_url_scrape _ _ _ _ Hurl Hrow Hc).
      rewrite (scrape_fulltext_url_run _ _ _ _ Hrow). cbn zeta.
      destruct (network c) as [exc|[|] text]; [by intros [= _ <-] | | by intros [= _ <-] ].
      destruct (find_pdf_anchor text) as [attrs|]; [ | by intros [= _ <-] ].
      destruct (attrs !! "href"); by intros [= _ <-].
    + rewrite get_fulltext_url_no_scrape by done. by intros [= _ <-].
Qed.

Lemma parse_row_disk row w r w' :
  parse_row row w = (r, w') →
  fs_dirs w' = fs_dirs w ∧ fs_files w' = fs_files w ∧ stdout w' = stdout w.
Proof.
  rewrite parse_row_run, parse_article_metadata_run.
  destruct (row !! "disciplines") as [d|]; [ | by intros [= _ <-] ].
  destruct (get_fulltext_url row true true w) as [[url|e] w1] eqn:Hurl;
    apply get_fulltext_url_disk in Hurl.
  - destruct (row !! "context_key"); by intros [= _ <-].
  - by intros [= _ <-].
Qed.

Lemma output_id_run row ck :
  row !! "context_key" = Some ck →
  output_id row = mret (match row !! "article_id" with
                        | Some a => if Py.truthy a then a else ck
                        | None => ck
                        end).
Proof.
  intros Hck. unfold output_id. rewrite (getitem_Some _ _ _ Hck).
  destruct (row !! "article_id") as [a|]; [ | done]. by destruct (Py.truthy a).
Qed.



Lemma csv_to_xml_cons row rest commit w :
  csv_to_xml (row :: rest) commit w =
    match csv_to_xml_row commit row w with
    | (Ok _, w') => csv_to_xml rest commit w'
    | (Err e, w') => (Err e, w')
    end.
Proof. reflexivity. Qed.

(** A batch is the batch of its first rows followed by the batch of the
    others, unless the first rows raise. *)
Lemma csv_to_xml_app pre post commit w :
  csv_to_xml (pre ++ post) commit w =
    match csv_to_xml pre commit w with
    | (Ok _, w') => csv_to_xml post commit w'
    | (Err e, w') => (Err e, w')
    end.
Proof.
  revert w. induction pre as [|row pre IH]; intros w; [done | ].
  rewrite <- app_comm_cons, !csv_to_xml_cons.
  destruct (csv_to_xml_row commit row w) as [[[]|e] w']; [apply IH | done].
Qed.



(** ** Facts about paths and the file system *)

Lemma Path_snoc args arg :
  Path (args ++ [arg]) = path_join (Path args) arg.
Proof. unfold Path. by rewrite foldl_app. Qed.

(** The file name [metadata.xml] adds one part. *)
Lemma Path_metadata args :
  Path (args ++ ["metadata.xml"])
    = MkPath (path_root (Path args)) (path_parts (Path args) ++ ["metadata.xml"]).
Proof. by rewrite Path_snoc. Qed.

Lemma path_parent_snoc root parts name :
  path_parent (MkPath root (parts ++ [name])) = MkPath root parts.
Proof. unfold path_parent. cbn. by rewrite removelast_last. Qed.

Lemma entry_kind_Dir dirs files q :
  entry_kind dirs files q = Dir ↔ q = [] ∨ q ∈ dirs.
Proof.
  unfold entry_kind. destruct (decide (q = [] ∨ q ∈ dirs)); [done | ].
  split; [ | done]. by destruct (decide (is_Some (files !! q))).
Qed.

Lemma entry_kind_File dirs files q :
  entry_kind dirs files q = File → is_Some (files !! q).
Proof.
  unfold entry_kind. destruct (decide (q = [] ∨ q ∈ dirs)); [done | ].
  by destruct (decide (is_Some (files !! q))).
Qed.

Lemma entry_kind_Absent dirs files q :
  entry_kind dirs files q = Absent →
  files !! q = None ∧ (q ∉ dirs) ∧ q ≠ [].
Proof.
  unfold entry_kind. destruct (decide (q = [] ∨ q ∈ dirs)) as [|Hn]; [done | ].
  destruct (decide (is_Some (files !! q))) as [|Hf]; [done | ]. intros _.
  split_and!; [by apply eq_None_not_Some | | ].
  - intros ?. apply Hn. by right.
  - intros ?. apply Hn. by left.
Qed.

Lemma walk_app dirs files cur xs ys :
  walk dirs files cur (xs ++ ys) =
    match walk dirs files cur xs with
    | inr dir => walk dirs files dir ys
    | inl code => inl code
    end.
Proof.
  revert cur. induction xs as [|x xs IH]; intros cur; [done | ].
  cbn [app walk]. destruct (decide (x = "..")); [apply IH | ].
  destruct (entry_kind dirs files (cur ++ [x])); [done | done | apply IH].
Qed.

(** More directories do not undo a look-up. *)
Lemma walk_mono dirs dirs' files files' cur xs dir :
  dirs ⊆ dirs' → walk dirs files cur xs = inr dir →
  walk dirs' files' cur xs = inr dir.
Proof.
  intros Hsub. revert cur. induction xs as [|x xs IH]; intros cur; [done | ].
  cbn [walk]. destruct (decide (x = "..")); [apply IH | ].
  destruct (entry_kind dirs files (cur ++ [x])) eqn:Hk; [done | done | ].
  apply entry_kind_Dir in Hk.
  assert (entry_kind dirs' files' (cur ++ [x]) = Dir) as ->.
  { apply entry_kind_Dir. destruct Hk as [?|?]; [by left | right; by apply Hsub]. }
  apply IH.
Qed.

Lemma walk_error dirs files cur xs code :
  walk dirs files cur xs = inl code → code = ENOENT ∨ code = ENOTDIR.
Proof.
  revert cur. induction xs as [|x xs IH]; intros cur; [done | ].
  cbn [walk]. destruct (decide (x = "..")); [apply IH | ].
  destruct (entry_kind dirs files (cur ++ [x]));
    [intros [= <-]; by left | intros [= <-]; by right | apply IH].
Qed.

Lemma elem_of_stdlib_rev {A} (x : A) (l : list A) : x ∈ rev l ↔ x ∈ l.
Proof. by rewrite !list_elem_of_In, <- in_rev. Qed.

Lemma take_S_snoc {A} (l : list A) n x :
  l !! n = Some x → take (S n) l = take n l ++ [x].
Proof. intros H. by rewrite (take_S_r _ _ _ H). Qed.

(** Without [..], a look-up that succeeds ends at the parts themselves, and
    all the locations on the way are directories. *)
Lemma walk_plain_inv dirs files cur xs dir :
  ".." ∉ xs → walk dirs files cur xs = inr dir →
  dir = cur ++ xs ∧ ∀ q, q ∈ path_chain cur xs → q ∈ dirs.
Proof.
  revert cur. induction xs as [|x xs IH]; intros cur Hplain.
  - intros [= <-]. rewrite app_nil_r. split; [done | ].
    intros q Hq. by apply elem_of_nil in Hq.
  - apply not_elem_of_cons in Hplain as [Hx Hplain]. cbn [walk].
    destruct (decide (x = "..")) as [?|_]; [congruence | ].
    destruct (entry_kind dirs files (cur ++ [x])) eqn:Hk; [done | done | ].
    intros Hwalk. destruct (IH _ Hplain Hwalk) as [-> Hchain].
    split; [by rewrite <- app_assoc | ].
    intros q Hq. unfold path_chain in Hq.
    apply list_elem_of_fmap in Hq as (n & -> & Hn). apply elem_of_seq in Hn.
    cbn [length] in Hn. destruct n as [|n]; [lia | ]. cbn [take].
    destruct n as [|n].
    + rewrite take_0. apply entry_kind_Dir in Hk as [Hk|Hk]; [ | done].
      by destruct cur.
    + apply Hchain. unfold path_chain. apply list_elem_of_fmap.
      exists (S n). split; [by rewrite <- app_assoc | ].
      apply elem_of_seq. lia.
Qed.

(** Without [..], a look-up through directories succeeds. *)
Lemma walk_plain dirs files cur xs :
  ".." ∉ xs → (∀ q, q ∈ path_chain cur xs → q ∈ dirs) →
  walk dirs files cur xs = inr (cur ++ xs).
Proof.
  revert cur. induction xs as [|x xs IH]; intros cur Hplain Hchain.
  - by rewrite app_nil_r.
  - apply not_elem_of_cons in Hplain as [Hx Hplain]. cbn [walk].
    destruct (decide (x = "..")) as [?|_]; [congruence | ].
    assert (entry_kind dirs files (cur ++ [x]) = Dir) as ->.
    { apply entry_kind_Dir. right. apply Hchain. unfold path_chain.
      apply list_elem_of_fmap. exists 1. split; [done | ].
      apply elem_of_seq. cbn [length]. lia. }
    rewrite IH; [by rewrite <- app_assoc | done | ].
    intros q Hq. apply Hchain. unfold path_chain in *.
    apply list_elem_of_fmap in Hq as (n & -> & Hn). apply elem_of_seq in Hn.
    apply list_elem_of_fmap. exists (S n). split; [by rewrite <- app_assoc | ].
    apply elem_of_seq. cbn [length]. lia.
Qed.

(** Without [..], a look-up stopped by [ENOTDIR] met a regular file. *)
Lemma walk_plain_ENOTDIR dirs files cur xs :
  ".." ∉ xs → walk dirs files cur xs = inl ENOTDIR →
  ∃ q, q ∈ path_chain cur xs ∧ is_Some (files !! q).
Proof.
  revert cur. induction xs as [|x xs IH]; intros cur Hplain; [done | ].
  apply not_elem_of_cons in Hplain as [Hx Hplain]. cbn [walk].
  destruct (decide (x = "..")) as [?|_]; [congruence | ].
  destruct (entry_kind dirs files (cur ++ [x])) eqn:Hk; [done | | ].
  - intros _. exists (cur ++ [x]). split; [ | by apply entry_kind_File in Hk].
    unfold path_chain. apply list_elem_of_fmap. exists 1. split; [done | ].
    apply elem_of_seq. cbn [length]. lia.
  - intros Hwalk. destruct (IH _ Hplain Hwalk) as (q & Hq & Hfile).
    exists q. split; [ | done]. unfold path_chain in *.
    apply list_elem_of_fmap in Hq as (n & -> & Hn). apply elem_of_seq in Hn.
    apply list_elem_of_fmap. exists (S n). split; [by rewrite <- app_assoc | ].
    apply elem_of_seq. cbn [length]. lia.
Qed.

Lemma path_chain_snoc cur xs x :
  path_chain cur (xs ++ [x]) = path_chain cur xs ++ [cur ++ xs ++ [x]].
Proof.
  unfold path_chain. rewrite length_app. cbn [length].
  rewrite Nat.add_1_r, seq_S, fmap_app. cbn [fmap list_fmap]. f_equal.
  - apply list_fmap_ext. intros i n Hn. apply lookup_seq in Hn as [-> Hi].
    by rewrite take_app_le by lia.
  - rewrite take_ge; [done | ]. rewrite length_app. cbn [length]. lia.
Qed.

Lemma only_new_dirs_refl w : only_new_dirs w w.
Proof. by split_and!. Qed.

Lemma only_new_dirs_trans w1 w2 w3 :
  only_new_dirs w1 w2 → only_new_dirs w2 w3 → only_new_dirs w1 w3.
Proof.
  intros (Hf & Ho & Hl & Hr & Hd & Hn) (Hf' & Ho' & Hl' & Hr' & Hd' & Hn').
  split_and!; [congruence.. | by etrans | ].
  intros q Hq3 Hq1. destruct (decide (q ∈ fs_dirs w2)) as [Hq2|Hq2].
  - by apply Hn.
  - rewrite <- Hf. by apply Hn'.
Qed.

(** [os.mkdir] raises and changes nothing, or makes one directory where
    nothing was, below a directory that exists. *)
Lemma os_mkdir_cases p w :
  (∃ code, os_mkdir p w = (Err (OSError code (path_str p)), w) ∧
           (code = ENOENT →
            ∃ name rdir, rev (path_parts p) = name :: rdir ∧
                         walk (fs_dirs w) (fs_files w) (path_base p) (rev rdir)
                           = inl ENOENT)) ∨
  (∃ name rdir dir,
     rev (path_parts p) = name :: rdir ∧
     walk (fs_dirs w) (fs_files w) (path_base p) (rev rdir) = inr dir ∧
     name ≠ ".." ∧
     entry_kind (fs_dirs w) (fs_files w) (dir ++ [name]) = Absent ∧
     os_mkdir p w
       = (Ok (), World ({[ dir ++ [name] ]} ∪ fs_dirs w) (fs_files w)
                       (stdout w) (log w) (fetched w))).
Proof.
  unfold os_mkdir.
  destruct (rev (path_parts p)) as [|name rdir] eqn:Hrev.
  { left. exists EEXIST. by split. }
  destruct (walk _ _ _ (rev rdir)) as [code|dir] eqn:Hwalk.
  { left. exists code. split; [done | ]. intros ->. by exists name, rdir. }
  destruct (decide (name = "..")) as [?|Hname].
  { left. exists EEXIST. by split. }
  destruct (entry_kind _ _ (dir ++ [name])) eqn:Hk.
  - right. by exists name, rdir, dir.
  - left. exists EEXIST. by split.
  - left. exists EEXIST. by split.
Qed.

Lemma rev_cons_inv {A} (l : list A) x r : rev l = x :: r → l = rev r ++ [x].
Proof. intros H. by rewrite <- (rev_involutive l), H. Qed.

Lemma is_dir_true p w :
  is_dir p w = true ↔
    ∃ dir, walk (fs_dirs w) (fs_files w) (path_base p) (path_parts p) = inr dir.
Proof.
  unfold is_dir. destruct (walk _ _ _ _) as [code|dir].
  - split; [done | by intros [? ?]].
  - split; [by exists dir | done].
Qed.

Lemma os_mkdir_spec p w r w' :
  os_mkdir p w = (r, w') →
  only_new_dirs w w' ∧ (r = Ok () → is_dir p w' = true).
Proof.
  destruct (os_mkdir_cases p w)
    as [(code & -> & _)|(name & rdir & dir & Hrev & Hwalk & Hname & Hk & ->)].
  - intros [= <- <-]. split; [apply only_new_dirs_refl | done].
  - intros [= <- <-]. apply entry_kind_Absent in Hk as (Hfile & Hnodir & _).
    split.
    + split_and!; [done.. | apply union_subseteq_r | ]. cbn [fs_dirs fs_files].
      intros q [->%elem_of_singleton|?]%elem_of_union ?; done.
    + intros _. apply is_dir_true. cbn [fs_dirs fs_files].
      rewrite (rev_cons_inv _ _ _ Hrev), walk_app.
      rewrite (walk_mono _ ({[dir ++ [name]]} ∪ fs_dirs w) _ (fs_files w)
                 _ _ _ (union_subseteq_r _ _) Hwalk).
      cbn [walk]. destruct (decide (name = "..")); [done | ].
      assert (entry_kind ({[dir ++ [name]]} ∪ fs_dirs w) (fs_files w)
                (dir ++ [name]) = Dir) as ->; [ | by eexists].
      apply entry_kind_Dir. right. apply elem_of_union. left.
      by apply elem_of_singleton.
Qed.

Lemma mkdir_exist_ok_spec p w r w' :
  mkdir_exist_ok p w = (r, w') →
  only_new_dirs w w' ∧ (r = Ok () → is_dir p w' = true).
Proof.
  unfold mkdir_exist_ok.
  destruct (os_mkdir p w) as [[[]|e] w1] eqn:Hos;
    pose proof (os_mkdir_spec _ _ _ _ Hos) as [Hnew Hdir].
  - intros [= <- <-]. auto.
  - destruct e as [key|code f]; [by intros [= <- <-] | ].
    destruct code; try (by intros [= <- <-]);
      (destruct (is_dir p w1) eqn:Hd; intros [= <- <-]; by split).
Qed.

Lemma mkdir_parents_rev_eq root rparts w :
  mkdir_parents_rev root rparts w =
    let p := MkPath root (rev rparts) in
    match os_mkdir p w with
    | (Ok u, w') => (Ok u, w')
    | (Err (OSError ENOENT f), w') =>
        match rparts with
        | [] => (Err (OSError ENOENT f), w')
        | _ :: rparent =>
            (mkdir_parents_rev root rparent;; mkdir_exist_ok p) w'
        end
    | (Err (OSError code f), w') =>
        if is_dir p w' then (Ok (), w') else (Err (OSError code f), w')
    | (Err e, w') => (Err e, w')
    end.
Proof. by destruct rparts. Qed.

(** [mkdir] with [parents] and [exist_ok] makes directories only, also when
    it raises, and when it returns the path is a directory. *)
Lemma mkdir_parents_rev_spec root rparts w r w' :
  mkdir_parents_rev root rparts w = (r, w') →
  only_new_dirs w w' ∧
  (r = Ok () → is_dir (MkPath root (rev rparts)) w' = true).
Proof.
  revert w r w'. induction rparts as [|name rparent IH]; intros w r w';
    rewrite mkdir_parents_rev_eq; cbn zeta;
    destruct (os_mkdir _ w) as [[[]|e] w1] eqn:Hos;
    pose proof (os_mkdir_spec _ _ _ _ Hos) as [Hnew Hdir].
  - intros [= <- <-]. auto.
  - destruct e as [key|code f]; [by intros [= <- <-] | ].
    destruct code; try (by intros [= <- <-]);
      (destruct (is_dir _ w1) eqn:Hd; intros [= <- <-]; by split).
  - intros [= <- <-]. auto.
  - destruct e as [key|code f]; [by intros [= <- <-] | ].
    destruct code;
      try (destruct (is_dir _ w1) eqn:Hd; intros [= <- <-]; by split).
    rewrite M_bind_run.
    destruct (mkdir_parents_rev root rparent w1) as [[[]|e] w2] eqn:Hparent;
      apply IH in Hparent as [Hnew2 _].
    + intros Hlast. apply mkdir_exist_ok_spec in Hlast as [Hnew3 Hdir3].
      split; [ | done]. eauto using only_new_dirs_trans.
    + intros [= <- <-]. split; [ | done]. eauto using only_new_dirs_trans.
Qed.

(** On a path that is a directory already, [mkdir] with [parents] and
    [exist_ok] returns and changes nothing. *)
Lemma mkdir_parents_rev_existing root rparts w :
  is_dir (MkPath root (rev rparts)) w = true →
  mkdir_parents_rev root rparts w = (Ok (), w).
Proof.
  intros Hdir. rewrite mkdir_parents_rev_eq. cbn zeta.
  destruct (os_mkdir_cases (MkPath root (rev rparts)) w)
    as [(code & -> & Hcode)|(name & rdir & dir & Hrev & Hwalk & Hname & Hk & _)].
  - destruct code; [ | by rewrite Hdir..].
    destruct (Hcode eq_refl) as (name & rdir & Hrev & Hwalk).
    apply is_dir_true in Hdir as [dir Hdir]. cbn [path_parts] in Hrev, Hdir.
    unfold path_base in *. cbn [path_root] in *.
    rewrite (rev_cons_inv _ _ _ Hrev), walk_app in Hdir.
    by rewrite Hwalk in Hdir.
  - apply is_dir_true in Hdir as [dir' Hdir]. cbn [path_parts] in Hrev, Hdir.
    unfold path_base in *. cbn [path_root] in *.
    rewrite (rev_cons_inv _ _ _ Hrev), walk_app in Hdir.
    rewrite Hwalk in Hdir. cbn [walk] in Hdir.
    destruct (decide (name = "..")); [done | ]. by rewrite Hk in Hdir.
Qed.

Lemma os_mkdir_snoc root prefix name w :
  os_mkdir (MkPath root (prefix ++ [name])) w =
    let p := MkPath root (prefix ++ [name]) in
    match walk (fs_dirs w) (fs_files w) (base_of root) prefix with
    | inl code => (Err (OSError code (path_str p)), w)
    | inr dir =>
        if decide (name = "..") then (Err (OSError EEXIST (path_str p)), w)
        else match entry_kind (fs_dirs w) (fs_files w) (dir ++ [name]) with
             | Absent =>
                 (Ok (), World ({[ dir ++ [name] ]} ∪ fs_dirs w) (fs_files w)
                               (stdout w) (log w) (fetched w))
             | _ => (Err (OSError EEXIST (path_str p)), w)
             end
    end.
Proof.
  unfold os_mkdir. unfold path_base. cbn [path_parts path_root].
  rewrite rev_app_distr. cbn [rev app]. by rewrite rev_involutive.
Qed.

Lemma open_write_snoc root prefix name text w :
  open_write (MkPath root (prefix ++ [name])) text w =
    let p := MkPath root (prefix ++ [name]) in
    match walk (fs_dirs w) (fs_files w) (base_of root) prefix with
    | inl code => (Err (OSError code (path_str p)), w)
    | inr dir =>
        if decide (name = "..") then (Err (OSError EISDIR (path_str p)), w)
        else match entry_kind (fs_dirs w) (fs_files w) (dir ++ [name]) with
             | Dir => (Err (OSError EISDIR (path_str p)), w)
             | _ =>
                 (Ok (), World (fs_dirs w)
                               (<[ dir ++ [name] := text ]> (fs_files w))
                               (stdout w) (log w) (fetched w))
             end
    end.
Proof.
  unfold open_write. unfold path_base. cbn [path_parts path_root].
  rewrite rev_app_distr. cbn [rev app]. by rewrite rev_involutive.
Qed.

Lemma is_dir_snoc root prefix name w :
  is_dir (MkPath root (prefix ++ [name])) w =
    match walk (fs_dirs w) (fs_files w) (base_of root) prefix with
    | inl _ => false
    | inr dir =>
        if decide (name = "..") then true
        else match entry_kind (fs_dirs w) (fs_files w) (dir ++ [name]) with
             | Dir => true
             | _ => false
             end
    end.
Proof.
  unfold is_dir. unfold path_base. cbn [path_parts path_root]. rewrite walk_app.
  destruct (walk _ _ _ prefix) as [code|dir]; [done | ]. cbn [walk].
  destruct (decide (name = "..")); [done | ].
  by destruct (entry_kind _ _ (dir ++ [name])).
Qed.

(** The last step of making a plain path whose directory exists: the
    directory is made, or it is there already. *)
Lemma mkdir_last_plain root prefix name w :
  ".." ∉ prefix → name ≠ ".." →
  (∀ q, q ∈ path_chain (base_of root) prefix → q ∈ fs_dirs w) →
  fs_files w !! (base_of root ++ prefix ++ [name]) = None →
  let p := MkPath root (prefix ++ [name]) in
  ∃ w', fs_dirs w' = fs_dirs w ∪ {[ base_of root ++ prefix ++ [name] ]} ∧
        ((os_mkdir p w = (Ok (), w')) ∨
         (∃ f, os_mkdir p w = (Err (OSError EEXIST f), w')
               ∧ w' = w ∧ is_dir p w = true)).
Proof.
  intros Hplain Hname Hchain Hfile p. unfold p.
  rewrite os_mkdir_snoc, is_dir_snoc. cbn zeta.
  rewrite (walk_plain _ _ _ _ Hplain Hchain).
  destruct (decide (name = "..")); [done | ]. rewrite <- app_assoc.
  destruct (entry_kind _ _ _) eqn:Hk.
  - eexists. split; [ | by left]. cbn [fs_dirs]. apply union_comm_L.
  - apply entry_kind_File in Hk. rewrite Hfile in Hk. by destruct Hk.
  - exists w. split; [ | right; by eexists].
    apply entry_kind_Dir in Hk as [Hk|Hk].
    + by destruct (base_of root), prefix.
    + apply set_eq. intros q. rewrite elem_of_union, elem_of_singleton.
      split; [by left | by intros [?| ->]].
Qed.

(** Without [..] and without a regular file in the way, [mkdir] with
    [parents] and [exist_ok] returns, and the directories are those that were
    there and those of the path. *)
Lemma mkdir_parents_rev_plain root rparts w :
  ".." ∉ rparts →
  (∀ q, q ∈ path_chain (base_of root) (rev rparts) → fs_files w !! q = None) →
  ∃ w', mkdir_parents_rev root rparts w = (Ok (), w') ∧
        fs_dirs w' = fs_dirs w ∪ list_to_set (path_chain (base_of root) (rev rparts)).
Proof.
  revert w. induction rparts as [|name rparent IH]; intros w Hplain Hfree.
  - exists w. split; [ | cbn; by rewrite union_empty_r_L].
    by apply mkdir_parents_rev_existing.
  - apply not_elem_of_cons in Hplain as [Hname Hplain].
    apply not_eq_sym in Hname.
    assert (Hplain' : ".." ∉ rev rparent) by (by rewrite elem_of_stdlib_rev).
    cbn [rev] in Hfree. rewrite path_chain_snoc in Hfree.
    assert (Hfree' : ∀ q, q ∈ path_chain (base_of root) (rev rparent) →
                          fs_files w !! q = None).
    { intros q Hq. apply Hfree. apply elem_of_app. by left. }
    assert (Hlast : fs_files w !! (base_of root ++ rev rparent ++ [name]) = None).
    { apply Hfree. apply elem_of_app. right. by apply list_elem_of_singleton. }
    rewrite mkdir_parents_rev_eq. cbn zeta. cbn [rev].
    rewrite path_chain_snoc, list_to_set_app_L. cbn [list_to_set].
    rewrite union_empty_r_L.
    destruct (walk (fs_dirs w) (fs_files w) (base_of root) (rev rparent))
      as [code|dir] eqn:Hwalk.
    + rewrite os_mkdir_snoc. cbn zeta. rewrite Hwalk.
      destruct (walk_error _ _ _ _ _ Hwalk) as [-> | ->].
      * rewrite M_bind_run.
        destruct (IH w Hplain Hfree') as (w1 & Hrun1 & Hdirs1).
        pose proof (mkdir_parents_rev_spec _ _ _ _ _ Hrun1)
          as [(Hfiles1 & _) _].
        rewrite Hrun1.
        destruct (mkdir_last_plain root (rev rparent) name w1 Hplain' Hname)
          as (w2 & Hdirs2 & Hcase).
        { intros q Hq. rewrite Hdirs1. apply elem_of_union. right.
          by apply elem_of_list_to_set. }
        { by rewrite Hfiles1. }
        exists w2. split; [ | by rewrite Hdirs2, Hdirs1, <- union_assoc_L].
        unfold mkdir_exist_ok.
        destruct Hcase as [-> | (f & -> & -> & ->)]; done.
      * destruct (walk_plain_ENOTDIR _ _ _ _ Hplain' Hwalk) as (q & Hq & Hsome).
        rewrite (Hfree' q Hq) in Hsome. by destruct Hsome.
    + destruct (walk_plain_inv _ _ _ _ _ Hplain' Hwalk) as [-> Hchain].
      destruct (mkdir_last_plain root (rev rparent) name w Hplain' Hname
                  Hchain Hlast) as (w2 & Hdirs2 & Hcase).
      exists w2. split.
      * destruct Hcase as [-> | (f & -> & -> & ->)]; done.
      * rewrite Hdirs2. apply set_eq. intros q.
        rewrite !elem_of_union, elem_of_list_to_set, elem_of_singleton.
        split; [intros [?| ->]; auto | intros [?|[?| ->]]; auto].
Qed.

Lemma PurePath_eta p : MkPath (path_root p) (path_parts p) = p.
Proof. by destruct p. Qed.

Lemma mkdir_parents_spec p w r w' :
  mkdir_parents p w = (r, w') →
  only_new_dirs w w' ∧ (r = Ok () → is_dir p w' = true).
Proof.
  unfold mkdir_parents. intros H. apply mkdir_parents_rev_spec in H.
  by rewrite rev_involutive, PurePath_eta in H.
Qed.

Lemma mkdir_parents_existing p w :
  is_dir p w = true → mkdir_parents p w = (Ok (), w).
Proof.
  intros H. unfold mkdir_parents. apply mkdir_parents_rev_existing.
  by rewrite rev_involutive, PurePath_eta.
Qed.

Lemma mkdir_parents_plain p w :
  ".." ∉ path_parts p →
  (∀ q, q ∈ path_chain (path_base p) (path_parts p) → fs_files w !! q = None) →
  ∃ w', mkdir_parents p w = (Ok (), w') ∧
        fs_dirs w' = fs_dirs w
                     ∪ list_to_set (path_chain (path_base p) (path_parts p)).
Proof.
  intros Hplain Hfree. unfold mkdir_parents, path_base in *.
  pose proof (mkdir_parents_rev_plain (path_root p) (rev (path_parts p)) w)
    as H.
  rewrite rev_involutive in H. apply H; [ | done].
  by rewrite elem_of_stdlib_rev.
Qed.

(** The three steps of a committed row: the record in the log, the
    directory, the file. *)
Lemma commit_steps_run msg dir_path text w1 :
  let file_path := MkPath (path_root dir_path)
                          (path_parts dir_path ++ ["metadata.xml"]) in
  let logged := World (fs_dirs w1) (fs_files w1) (stdout w1)
                      (log w1 ++ [(INFO, msg)]) (fetched w1) in
  (logger INFO msg;; mkdir_parents dir_path;; open_write file_path text) w1 =
    match mkdir_parents dir_path logged with
    | (Err e, w2) => (Err e, w2)
    | (Ok _, w2) =>
        match walk (fs_dirs w2) (fs_files w2) (path_base dir_path)
                   (path_parts dir_path) with
        | inl code => (Err (OSError code (path_str file_path)), w2)
        | inr dir =>
            match entry_kind (fs_dirs w2) (fs_files w2)
                             (dir ++ ["metadata.xml"]) with
            | Dir => (Err (OSError EISDIR (path_str file_path)), w2)
            | _ =>
                (Ok (), World (fs_dirs w2)
                              (<[ dir ++ ["metadata.xml"] := text ]> (fs_files w2))
                              (stdout w2) (log w2) (fetched w2))
            end
        end
    end.
Proof.
  cbn zeta. run_M.
  destruct (mkdir_parents dir_path _) as [[[]|e] w2]; [ | done].
  rewrite open_write_snoc. cbn zeta. unfold path_base.
  destruct (walk _ _ _ _) as [code|dir]; [done | ].
  by destruct (decide ("metadata.xml" = "..")).
Qed.

(** The loop body case by case. *)
Lemma csv_to_xml_row_run commit row w :
  csv_to_xml_row commit row w =
    match parse_row row w with
    | (Err e, w1) => (Err e, w1)
    | (Ok parsed, w1) =>
        match row !! "issue" with
        | None => (Err (KeyError "issue"), w1)
        | Some issue =>
            let ck := default "" (row !! "context_key") in
            let id := match row !! "article_id" with
                      | Some a => if Py.truthy a then a else ck
                      | None => ck
                      end in
            let dir_path := Path [BEPRESS_PATH; issue; id] in
            let file_path := MkPath (path_root dir_path)
                                    (path_parts dir_path ++ ["metadata.xml"]) in
            if commit then
              (logger INFO (Py.format_s "Writing to %s" (path_str file_path));;
               mkdir_parents dir_path;;
               open_write file_path (render_xml parsed)) w1
            else print (render_xml parsed) w1
        end
    end.
Proof.
  unfold csv_to_xml_row. rewrite M_bind_run.
  destruct (parse_row row w) as [[parsed|e] w1] eqn:Hrow; [ | done].
  apply parse_row_Ok in Hrow as (article_dict & Hrow & _).
  apply parse_article_metadata_Ok in Hrow as (_ & _ & ck & _ & _ & Hck & _).
  rewrite (output_id_run _ _ Hck), Hck. run_M.
  unfold getitem. destruct (row !! "issue") as [issue|]; [ | done]. run_M.
  cbn zeta. cbn [default]. unfold output_path.
  match goal with
  | |- context [Path [BEPRESS_PATH; issue; ?id; "metadata.xml"]] =>
      change [BEPRESS_PATH; issue; id; "metadata.xml"]
        with ([BEPRESS_PATH; issue; id] ++ ["metadata.xml"])
  end.
  rewrite Path_metadata, path_parent_snoc, PurePath_eta.
  by destruct commit.
Qed.

Lemma disk_grows_refl w : disk_grows w w.
Proof. by split_and!. Qed.

Lemma disk_grows_trans w1 w2 w3 :
  disk_grows w1 w2 → disk_grows w2 w3 → disk_grows w1 w3.
Proof.
  intros (Hd & Hk & Hn) (Hd' & Hk' & Hn'). split_and!; [by etrans | auto | ].
  intros q Hq3 Hq1. destruct (decide (q ∈ fs_dirs w2)) as [Hq2|Hq2].
  - by apply Hn.
  - apply eq_None_not_Some. intros Hsome%Hk.
    rewrite (Hn' q Hq3 Hq2) in Hsome. by destruct Hsome.
Qed.

Lemma disk_grows_same w w' :
  fs_dirs w' = fs_dirs w → fs_files w' = fs_files w → disk_grows w w'.
Proof. intros Hd Hf. unfold disk_grows. rewrite Hd, Hf. by split_and!. Qed.

(** What the three steps of a committed row do to the world, whether they
    return or raise. *)
Lemma commit_steps_frame msg dir_path text w1 :
  let file_path := MkPath (path_root dir_path)
                          (path_parts dir_path ++ ["metadata.xml"]) in
  let w' := ((logger INFO msg;; mkdir_parents dir_path;;
              open_write file_path text) w1).2 in
  stdout w' = stdout w1 ∧ fetched w' = fetched w1 ∧
  disk_grows w1 w' ∧
  (∀ q, last q ≠ Some "metadata.xml" → fs_files w' !! q = fs_files w1 !! q).
Proof.
  cbn zeta. rewrite commit_steps_run. cbn zeta.
  destruct (mkdir_parents dir_path _) as [r w2] eqn:Hmk.
  apply mkdir_parents_spec in Hmk as [(Hf & Ho & Hl & Hr & Hd & Hn) _].
  cbn [fs_dirs fs_files stdout log fetched] in *.
  assert (Hgrow : disk_grows w1 w2).
  { split_and!; [done | by rewrite Hf | done]. }
  assert (Hkeep : stdout w2 = stdout w1 ∧ fetched w2 = fetched w1 ∧
                  disk_grows w1 w2 ∧
                  (∀ q, last q ≠ Some "metadata.xml" →
                        fs_files w2 !! q = fs_files w1 !! q)).
  { split_and!; [done | done | done | ]. intros q _. by rewrite Hf. }
  destruct r as [[]|e]; [ | exact Hkeep].
  destruct (walk _ _ _ _) as [code|dir]; [exact Hkeep | ].
  assert (Hwrite : ∀ w3,
            fs_dirs w3 = fs_dirs w2 → stdout w3 = stdout w2 →
            fetched w3 = fetched w2 →
            fs_files w3 = <[dir ++ ["metadata.xml"] := text]> (fs_files w2) →
            stdout w3 = stdout w1 ∧ fetched w3 = fetched w1 ∧
            disk_grows w1 w3 ∧
            (∀ q, last q ≠ Some "metadata.xml" →
                  fs_files w3 !! q = fs_files w1 !! q)).
  { intros w3 Hd3 Ho3 Hr3 Hf3. split_and!; [congruence | congruence | | ].
    - split_and!; [by rewrite Hd3 | | by rewrite Hd3].
      intros q Hq. rewrite Hf3, Hf.
      destruct (decide (dir ++ ["metadata.xml"] = q)) as [<-|?];
        [rewrite lookup_insert_eq; by eexists | by rewrite lookup_insert_ne].
    - intros q Hq. rewrite Hf3, Hf. apply lookup_insert_ne. intros <-.
      by rewrite last_snoc in Hq. }
  destruct (entry_kind _ _ _); [by apply Hwrite | by apply Hwrite | exact Hkeep].
Qed.

(** When the three steps of a committed row return, the directory of the
    file exists, the file holds the text and is no directory, and nothing
    else changed but directories that were made. *)
Lemma commit_steps_Ok msg dir_path text w1 w2 :
  let file_path := MkPath (path_root dir_path)
                          (path_parts dir_path ++ ["metadata.xml"]) in
  let steps := (logger INFO msg;; mkdir_parents dir_path;;
                open_write file_path text) in
  steps w1 = (Ok (), w2) →
  ∃ dir,
    walk (fs_dirs w2) (fs_files w2) (path_base dir_path) (path_parts dir_path)
      = inr dir ∧
    fs_files w2 = <[ dir ++ ["metadata.xml"] := text ]> (fs_files w1) ∧
    (dir ++ ["metadata.xml"] ∉ fs_dirs w2) ∧
    fs_dirs w1 ⊆ fs_dirs w2 ∧
    (∀ q, q ∈ fs_dirs w2 → q ∉ fs_dirs w1 → fs_files w1 !! q = None) ∧
    stdout w2 = stdout w1 ∧ fetched w2 = fetched w1 ∧
    log w2 = log w1 ++ [(INFO, msg)].
Proof.
  cbn zeta. rewrite commit_steps_run. cbn zeta.
  destruct (mkdir_parents dir_path _) as [r w'] eqn:Hmk.
  apply mkdir_parents_spec in Hmk as [(Hf & Ho & Hl & Hr & Hd & Hn) _].
  cbn [fs_dirs fs_files stdout log fetched] in *.
  destruct r as [[]|e]; [ | done].
  destruct (walk _ _ _ _) as [code|dir] eqn:Hwalk; [done | ].
  assert (Hnodir : entry_kind (fs_dirs w') (fs_files w')
                     (dir ++ ["metadata.xml"]) ≠ Dir →
                   dir ++ ["metadata.xml"] ∉ fs_dirs w').
  { intros Hk Hin. apply Hk. apply entry_kind_Dir. by right. }
  destruct (entry_kind _ _ _) eqn:Hk; [ | | done]; intros [= <-];
    exists dir; cbn [fs_dirs fs_files stdout log fetched];
    (split_and!; [ | by rewrite Hf | by apply Hnodir | done..]);
    exact (walk_mono _ _ _ _ _ _ _ (reflexivity _) Hwalk).
Qed.

Lemma path_chain_length base parts q :
  q ∈ path_chain base parts → length q ≤ length base + length parts.
Proof.
  unfold path_chain. intros (n & -> & Hn)%list_elem_of_fmap.
  rewrite length_app, length_take. lia.
Qed.

(** A committed row that returns: what it read and what it left. *)
Lemma csv_to_xml_row_commit_Ok row w w2 :
  csv_to_xml_row true row w = (Ok (), w2) →
  ∃ parsed w1 issue ck dir,
    parse_row row w = (Ok parsed, w1) ∧
    row !! "issue" = Some issue ∧ row !! "context_key" = Some ck ∧
    let id := match row !! "article_id" with
              | Some a => if Py.truthy a then a else ck
              | None => ck
              end in
    let dir_path := Path [BEPRESS_PATH; issue; id] in
    walk (fs_dirs w2) (fs_files w2) (path_base dir_path) (path_parts dir_path)
      = inr dir ∧
    fs_files w2 = <[ dir ++ ["metadata.xml"] := render_xml parsed ]> (fs_files w) ∧
    (dir ++ ["metadata.xml"] ∉ fs_dirs w2) ∧
    fs_dirs w ⊆ fs_dirs w2 ∧
    (∀ q, q ∈ fs_dirs w2 → q ∉ fs_dirs w → fs_files w !! q = None) ∧
    stdout w2 = stdout w.
Proof.
  rewrite csv_to_xml_row_run.
  destruct (parse_row row w) as [[parsed|e] w1] eqn:Hrow; [ | done].
  destruct (parse_row_disk _ _ _ _ Hrow) as (Hd & Hf & Ho).
  pose proof Hrow as Hck.
  apply parse_row_Ok in Hck as (article_dict & Hck & _).
  apply parse_article_metadata_Ok in Hck as (_ & _ & ck & _ & _ & Hck & _).
  destruct (row !! "issue") as [issue|] eqn:Hissue; [ | done].
  rewrite Hck. change (default "" (Some ck)) with ck. cbn zeta.
  intros (dir & Hwalk & Hfiles & Hnodir & Hsub & Hnew & Hout & _)%commit_steps_Ok.
  exists parsed, w1, issue, ck, dir. rewrite Hd, Hf, Ho in *.
  by split_and!.
Qed.

(** A committed row returns when no part of its directory is [..], no
    regular file stands where a directory has to be and no directory stands
    where the file has to be. *)
Lemma csv_to_xml_row_commit_plain row w parsed w1 ck issue :
  parse_row row w = (Ok parsed, w1) →
  row !! "context_key" = Some ck →
  row !! "issue" = Some issue →
  let id := match row !! "article_id" with
            | Some a => if Py.truthy a then a else ck
            | None => ck
            end in
  let dir_path := Path [BEPRESS_PATH; issue; id] in
  let chain := path_chain (path_base dir_path) (path_parts dir_path) in
  let target := path_base dir_path ++ path_parts dir_path ++ ["metadata.xml"] in
  ".." ∉ path_parts dir_path →
  (∀ q, q ∈ chain → fs_files w !! q = None) →
  target ∉ fs_dirs w →
  ∃ w2,
    csv_to_xml_row true row w = (Ok (), w2) ∧
    fs_dirs w2 = fs_dirs w ∪ list_to_set chain ∧
    fs_files w2 = <[ target := render_xml parsed ]> (fs_files w) ∧
    stdout w2 = stdout w.
Proof.
  intros Hrow Hck Hissue id dir_path chain target Hplain Hfree Hnodir.
  destruct (parse_row_disk _ _ _ _ Hrow) as (Hd & Hf & Ho).
  rewrite csv_to_xml_row_run, Hrow, Hissue, Hck.
  change (default "" (Some ck)) with ck. cbn zeta.
  fold id. fold dir_path. rewrite commit_steps_run. cbn zeta.
  match goal with
  | |- context [mkdir_parents dir_path ?wl] =>
      destruct (mkdir_parents_plain dir_path wl Hplain) as (w2 & Hmk & Hdirs);
        [cbn [fs_files]; by rewrite Hf | ];
      pose proof (mkdir_parents_spec _ _ _ _ Hmk)
        as [(Hf2 & Ho2 & _ & _ & _ & _) _]
  end.
  rewrite Hmk. cbn [fs_dirs fs_files stdout] in *. rewrite Hd in Hdirs.
  rewrite (walk_plain _ _ _ _ Hplain);
    [ | intros q Hq; rewrite Hdirs; apply elem_of_union; right;
        by apply elem_of_list_to_set ].
  rewrite <- app_assoc. fold target.
  assert (Hnot : target ∉ fs_dirs w2).
  { rewrite Hdirs. rewrite not_elem_of_union, elem_of_list_to_set.
    split; [done | ]. intros Hin%path_chain_length. unfold target in Hin.
    rewrite !length_app in Hin. cbn [length] in Hin. lia. }
  assert (Hkind : entry_kind (fs_dirs w2) (fs_files w2) target ≠ Dir).
  { intros [Hk|Hk]%entry_kind_Dir; [ | done].
    unfold target in Hk. by destruct (path_base dir_path), (path_parts dir_path). }
  destruct (entry_kind _ _ target); [ | | done];
    (eexists; split; [reflexivity | ]; cbn [fs_dirs fs_files stdout];
     split_and!; [done | by rewrite Hf2, Hf | by rewrite Ho2, Ho]).
Qed.

(** ** More about the full-text URL *)

Lemma contains_app c (s t : string) :
  Py.contains c (s +:+ t) = Py.contains c s || Py.contains c t.
Proof.
  induction s as [|a s IH]; [done | ].
  rewrite append_cons. simpl. by destruct (Ascii.eqb a c).
Qed.

(** [get_fulltext_url] by the guard of its scrape. *)
Lemma get_fulltext_url_guard row unstamped scrape w :
  get_fulltext_url row unstamped scrape w =
    if negb (Py.truthy_opt (row !! "fulltext_url")) && scrape
       && Py.truthy_opt (row !! "calc_url")
    then match scrape_fulltext_url row (row !! "fulltext_url") w with
         | (Ok url, w') => (Ok (add_unstamped url unstamped), w')
         | (Err e, w') => (Err e, w')
         end
    else (Ok (add_unstamped (row !! "fulltext_url") unstamped), w).
Proof.
  unfold get_fulltext_url. rewrite M_bind_run.
  destruct (negb _ && scrape && _); [ | done].
  by destruct (scrape_fulltext_url _ _ _) as [[url|e] w'].
Qed.

Lemma truthy_opt_true (o : option string) :
  Py.truthy_opt o = true ↔ ∃ s, o = Some s ∧ s ≠ "".
Proof.
  destruct o as [s|]; simpl.
  - rewrite truthy_true. split; [by exists s | by intros (? & [= <-] & ?)].
  - split; [done | by intros (? & ? & _)].
Qed.

(** X1. With [scrape=False], [get_fulltext_url] never raises and leaves the
    world untouched (no request, no log record): it returns the row's own
    [fulltext_url], with the flag when it is not empty and [unstamped] is
    set, whatever the row holds as [calc_url]. *)
Theorem no_scrape_is_pure (row : Row) (unstamped : bool) (w : world) :
  get_fulltext_url row unstamped false w
    = (Ok (match row !! "fulltext_url" with
           | Some u =>
               if Py.truthy u && unstamped
               then Some (u +:+ (if Py.contains "?" u then "&" else "?")
                            +:+ "unstamped=1")
               else Some u
           | None => None
           end), w).
Proof.
  rewrite get_fulltext_url_guard, andb_false_r. cbn [andb].
  do 2 f_equal. destruct (row !! "fulltext_url") as [u|]; [ | done].
  unfold add_unstamped. destruct (Py.truthy u && unstamped); [ | done].
  by destruct (Py.contains "?" u).
Qed.

(** X2. [get_fulltext_url] sends one request, to the row's [calc_url], when
    the row has no full-text URL of its own, scraping is allowed and
    [calc_url] is not empty; in every other case it sends none. This holds
    whatever the call returns or raises. *)
Theorem at_most_one_request (row : Row) (unstamped scrape : bool) (w : world) :
  fetched (get_fulltext_url row unstamped scrape w).2
    = fetched w
      ++ (if negb (Py.truthy_opt (row !! "fulltext_url")) && scrape
             && Py.truthy_opt (row !! "calc_url")
          then [default "" (row !! "calc_url")]
          else []).
Proof.
  rewrite get_fulltext_url_guard.
  destruct (negb _ && scrape && _) eqn:Hguard; [ | by rewrite app_nil_r].
  apply andb_true_iff in Hguard as [_ (c & Hc & _)%truthy_opt_true].
  rewrite (scrape_fulltext_url_run _ _ _ _ Hc), Hc. cbn zeta.
  destruct (network c) as [exc|[|] text]; [done | | done].
  destruct (find_pdf_anchor text) as [attrs|]; [ | done].
  by destruct (attrs !! "href").
Qed.

(** X3. [get_fulltext_url] raises exactly when it scrapes a page that answers
    OK and has an anchor with id [pdf] but without an [href] attribute. The
    exception is then [KeyError("href")], raised after the request was sent
    and logged. *)
Theorem raises_only_for_anchor_without_href
    (row : Row) (unstamped scrape : bool) (w w' : world) (e : exn) :
  get_fulltext_url row unstamped scrape w = (Err e, w') ↔
    e = KeyError "href" ∧
    (row !! "fulltext_url" = None ∨ row !! "fulltext_url" = Some "") ∧
    scrape = true ∧
    ∃ c text attrs,
      row !! "calc_url" = Some c ∧ c ≠ "" ∧
      network c = Response true text ∧
      find_pdf_anchor text = Some attrs ∧
      attrs !! "href" = None ∧
      w' = World (fs_dirs w) (fs_files w) (stdout w)
                 (log w ++ [(INFO, Py.format_s "Fetching article from %s" c)])
                 (fetched w ++ [c]).
Proof.
  rewrite get_fulltext_url_guard. split.
  - destruct (negb _ && scrape && _) eqn:Hguard; [ | done].
    apply andb_true_iff in Hguard as [Hguard (c & Hc & Hne)%truthy_opt_true].
    apply andb_true_iff in Hguard as [Hurl ->].
    apply negb_true_iff, truthy_opt_false in Hurl.
    rewrite (scrape_fulltext_url_run _ _ _ _ Hc). cbn zeta.
    destruct (network c) as [exc|[|] text] eqn:Hnet; [done | | done].
    destruct (find_pdf_anchor text) as [attrs|] eqn:Hfind; [ | done].
    destruct (attrs !! "href") eqn:Hhref; [done | ].
    intros [= <- <-]. split_and!; [done.. | ]. by exists c, text, attrs.
  - intros (-> & Hurl & -> & c & text & attrs & Hc & Hne & Hnet & Hfind & Hhref & ->).
    apply truthy_opt_false in Hurl. rewrite Hurl, Hc. cbn [Py.truthy_opt].
    rewrite (proj2 (truthy_true c) Hne). cbn [negb andb].
    rewrite (scrape_fulltext_url_run _ _ _ _ Hc). cbn zeta.
    by rewrite Hnet, Hfind, Hhref.
Qed.

(** X4. With [unstamped=True], a URL that [get_fulltext_url] returns is never
    a bare one: when the result is not empty it is the URL resolved without
    the flag, itself not empty, followed by [?unstamped=1] or [&unstamped=1],
    so it always contains a [?]. *)
Theorem returned_url_always_flagged
    (row : Row) (scrape : bool) (w w' : world) (r : string) :
  get_fulltext_url row true scrape w = (Ok (Some r), w') → r ≠ "" →
  Py.contains "?" r = true ∧
  ∃ u, u ≠ "" ∧
       get_fulltext_url row false scrape w = (Ok (Some u), w') ∧
       r = u +:+ (if Py.contains "?" u then "&" else "?") +:+ "unstamped=1".
Proof.
  intros Hrun Hr. rewrite (get_fulltext_url_unstamped row true) in Hrun.
  destruct (get_fulltext_url row false scrape w) as [[[u|]|e] w1];
    [ | done..].
  assert (Hadd : add_unstamped (Some u) true = Some r ∧ w1 = w')
    by (split; congruence).
  clear Hrun. destruct Hadd as [Hadd <-].
  destruct (Py.truthy u) eqn:Hu.
  - apply truthy_true in Hu. rewrite (add_unstamped_truthy _ Hu) in Hadd.
    injection Hadd as <-. split; [ | by exists u].
    rewrite !contains_app. destruct (Py.contains "?" u) eqn:Hq; [done | ].
    reflexivity.
  - apply truthy_false in Hu. subst u. by injection Hadd as <-.
Qed.

(** ** More about the authors *)

Lemma parse_authors_loop_ext row row' indices authors :
  (∀ i, i ∈ indices → build_author row i = build_author row' i) →
  parse_authors_loop row indices authors
    = parse_authors_loop row' indices authors.
Proof.
  revert authors. induction indices as [|i indices IH]; intros authors Hext.
  - done.
  - simpl. rewrite <- (Hext i) by left.
    destruct (dict_truthy (build_author row i)); [ | done].
    apply IH. intros j Hj. apply Hext. by right.
Qed.

(** X5. [parse_authors] reads nothing but the 35 columns
    [author1_fname] ... [author5_is_corporate], and of those only the
    non-empty values: two rows that hold the same non-empty values in these
    columns have the same authors, whatever else they hold and whether a
    blank column is missing or empty. *)
Theorem authors_depend_on_author_columns_only (row row' : Row) :
  (∀ src dest i v,
     (src, dest) ∈ AUTHOR_FIELDS_MAP → 1 ≤ i ≤ 5 → v ≠ "" →
     (row !! Py.format_d src i = Some v ↔ row' !! Py.format_d src i = Some v)) →
  parse_authors row = parse_authors row'.
Proof.
  intros Hsame. apply parse_authors_loop_ext. intros i Hi.
  apply elem_of_seq in Hi.
  apply map_eq. intros dest. apply option_eq. intros v.
  unfold build_author.
  rewrite !build_author_with_lookup by apply AUTHOR_FIELDS_MAP_NoDup.
  split; intros (src & Hin & Hv & Hne); exists src;
    (split_and!; [done | | done]);
    by apply (Hsame src dest i v Hin ltac:(lia) Hne).
Qed.

(** X6. A non-empty author column is found again in the result: when the
    column of index [i] (1 to 5) for an attribute holds a non-empty value and
    every index before [i] has some non-empty column, the author at position
    [i - 1] of the result holds that value under the attribute's destination
    name. *)
Theorem author_column_round_trip
    (row : Row) (src dest v : string) (i : nat) :
  (src, dest) ∈ AUTHOR_FIELDS_MAP → 1 ≤ i ≤ 5 →
  row !! Py.format_d src i = Some v → v ≠ "" →
  (∀ j, 1 ≤ j < i →
        ∃ src' dest' v', (src', dest') ∈ AUTHOR_FIELDS_MAP ∧
                         row !! Py.format_d src' j = Some v' ∧ v' ≠ "") →
  ∃ author, parse_authors row !! (i - 1) = Some author ∧
            author !! dest = Some v.
Proof.
  intros Hin Hi Hv Hne Hbefore.
  assert (Hfilled : ∀ j, 1 ≤ j ≤ i → build_author row j ≠ ∅).
  { intros j Hj Hblank.
    assert (∃ d x, build_author row j !! d = Some x) as (d & x & Hx).
    { destruct (decide (j = i)) as [->|Hji].
      - exists dest, v. apply build_author_with_lookup;
          [apply AUTHOR_FIELDS_MAP_NoDup | by exists src].
      - destruct (Hbefore j ltac:(lia)) as (src' & dest' & v' & ? & ? & ?).
        exists dest', v'. apply build_author_with_lookup;
          [apply AUTHOR_FIELDS_MAP_NoDup | by exists src']. }
    by rewrite Hblank, lookup_empty in Hx. }
  destruct (parse_authors_loop_prefix row (seq 1 5) [])
    as (k & Hk & E & _ & Hstop).
  rewrite length_seq in Hk. rewrite take_seq in E.
  replace (k `min` 5) with k in E by lia. rewrite app_nil_l in E.
  assert (i ≤ k) as Hik.
  { destruct (decide (i ≤ k)) as [?|Hlt]; [done | ].
    destruct (Hfilled (S k) ltac:(lia)).
    apply Hstop. rewrite lookup_seq_lt by lia. done. }
  exists (build_author row i). split.
  - unfold parse_authors. rewrite E, list_lookup_fmap.
    rewrite lookup_seq_lt by lia. simpl. f_equal. f_equal. lia.
  - apply build_author_with_lookup;
      [apply AUTHOR_FIELDS_MAP_NoDup | by exists src].
Qed.

(** ** More about the article dictionary *)

Lemma split_from_length sep cur s :
  length (Py.split_from sep cur s)
    = S (length (filter (λ a, a = sep) (list_ascii_of_string s))).
Proof.
  revert cur. induction s as [|a s IH]; intros cur; simpl; [done | ].
  destruct (Ascii.eqb_spec a sep) as [->|Hne].
  - rewrite filter_cons_True by done. simpl. by rewrite IH.
  - rewrite filter_cons_False by done. apply IH.
Qed.

(** X7. In a mapped row no keyword contains a semicolon, and there is one
    keyword more than there are semicolons in the [disciplines] field. *)
Theorem keywords_are_cut_at_every_semicolon
    (row : Row) (disciplines : string) (w w' : world)
    (article_dict : gmap string pyval) :
  parse_article_metadata row w = (Ok article_dict, w') →
  row !! "disciplines" = Some disciplines →
  ∃ keywords,
    article_dict !! "keywords" = Some (PyList keywords) ∧
    Forall (λ keyword, Py.contains ";" keyword = false) keywords ∧
    length keywords
      = S (length (filter (λ a, a = ";"%char) (list_ascii_of_string disciplines))).
Proof.
  intros (d & url & ck & Hd & _ & _ & ->)%parse_article_metadata_Ok Hdisc.
  rewrite Hdisc in Hd. injection Hd as <-.
  exists (Py.split ";" disciplines). split_and!.
  - apply article_dict_lookup_derived.
  - by apply split_from_no_sep.
  - apply split_from_length.
Qed.

(** X8. When [parse_row] succeeds the row has a [context_key], and the
    dictionary holds it as [article_id] (also when the row has an
    [article_id] of its own), holds as [fulltext_url] what
    [get_fulltext_url(row)] returned ([None] when nothing was resolved) and
    holds as [authors] the list of [parse_authors(row)]; the world is the one
    [get_fulltext_url] left. *)
Theorem parse_row_derived_fields
    (row : Row) (w w' : world) (parsed : gmap string pyval) :
  parse_row row w = (Ok parsed, w') →
  ∃ context_key fulltext_url,
    row !! "context_key" = Some context_key ∧
    get_fulltext_url row true true w = (Ok fulltext_url, w') ∧
    parsed !! "article_id" = Some (PyStr context_key) ∧
    parsed !! "fulltext_url" = Some (match fulltext_url with
                                     | Some u => PyStr u
                                     | None => PyNone
                                     end) ∧
    parsed !! "authors" = Some (PyDicts (parse_authors row)).
Proof.
  intros (article_dict & (d & url & ck & Hd & Hurl & Hck & ->)
            %parse_article_metadata_Ok & ->)%parse_row_Ok.
  exists ck, url. split_and!; [done | done | | | ].
  - rewrite lookup_insert_ne by done. apply article_dict_lookup_derived.
  - rewrite lookup_insert_ne by done.
    match goal with
    | |- context [Py.dict ?m [(_, ?k); (_, ?u); (_, ?a); (_, ?l); (_, ?p)]] =>
        destruct (article_dict_lookup_derived m k u a l p) as (_ & -> & _)
    end.
    by destruct url.
  - apply lookup_insert_eq.
Qed.


(** ** More about the batch *)

(** X9. The batch stops at the first row that raises: the exception and the
    world are those of that row, and the rows after it are not read. *)
Theorem batch_stops_at_first_failure
    (pre post : list Row) (row : Row) (commit : bool) (w w0 w1 : world)
    (e : exn) :
  csv_to_xml pre commit w = (Ok (), w0) →
  csv_to_xml_row commit row w0 = (Err e, w1) →
  csv_to_xml (pre ++ row :: post) commit w = (Err e, w1).
Proof.
  intros Hpre Hrow. by rewrite csv_to_xml_app, Hpre, csv_to_xml_cons, Hrow.
Qed.

(** X10. A row that is mapped but has no [issue] field ends the batch with
    [KeyError("issue")]: neither a file nor a directory is written and
    nothing is printed, with or without [commit], while the log records and
    the request of the mapping stay. *)
Theorem missing_issue_ends_batch
    (row : Row) (post : list Row) (commit : bool) (w w1 : world)
    (parsed : gmap string pyval) :
  parse_row row w = (Ok parsed, w1) →
  row !! "issue" = None →
  csv_to_xml (row :: post) commit w = (Err (KeyError "issue"), w1) ∧
  fs_dirs w1 = fs_dirs w ∧ fs_files w1 = fs_files w ∧ stdout w1 = stdout w.
Proof.
  intros Hrow Hissue. split; [ | by eapply parse_row_disk].
  by rewrite csv_to_xml_cons, csv_to_xml_row_run, Hrow, Hissue.
Qed.

(** One row without [commit] prints the document of its article dictionary,
    or raises and prints nothing. *)
Lemma csv_to_xml_row_dry_stdout row w :
  match csv_to_xml_row false row w with
  | (Ok _, w') =>
      ∃ parsed w1, parse_row row w = (Ok parsed, w1) ∧
                   stdout w' = stdout w ++ [render_xml parsed]
  | (Err _, w') => stdout w' = stdout w
  end.
Proof.
  rewrite csv_to_xml_row_run.
  destruct (parse_row row w) as [[parsed|e] w1] eqn:Hrow;
    pose proof (parse_row_disk _ _ _ _ Hrow) as (_ & _ & Ho); [ | done].
  destruct (row !! "issue") as [issue|]; [ | done].
  cbn zeta. unfold print. cbn [stdout]. rewrite Ho. by eexists _, _.
Qed.

(** X11. A batch without [commit] prints one document for each row it
    processes, in the order of the rows and after what standard output
    already held; each is the rendering of the article dictionary of its
    row. When the batch returns there are as many documents as rows. When it
    raises, the documents are those of the rows before the failing one: the
    rows before the row at the position of the number of documents make a
    batch that returns, and that row raises the exception of the batch. *)
Theorem dry_run_prints_one_document_per_row (reader : list Row) (w : world) :
  ∃ docs,
    stdout (csv_to_xml reader false w).2 = stdout w ++ docs ∧
    match (csv_to_xml reader false w).1 with
    | Ok _ => length docs = length reader
    | Err e =>
        length docs < length reader ∧
        ∃ row wi,
          reader !! length docs = Some row ∧
          csv_to_xml (take (length docs) reader) false w = (Ok (), wi) ∧
          csv_to_xml_row false row wi
            = (Err e, (csv_to_xml reader false w).2)
    end ∧
    Forall2 (λ row doc,
               ∃ parsed wi wi',
                 parse_row row wi = (Ok parsed, wi') ∧
                 doc = render_to_string "bepress/xml/metadata.xml"
                         {["article" := parsed]})
            (take (length docs) reader) docs.
Proof.
  revert w. induction reader as [|row reader IH]; intros w.
  - exists []. rewrite app_nil_r. split_and!; [done | done | constructor].
  - rewrite csv_to_xml_cons.
    pose proof (csv_to_xml_row_dry_stdout row w) as Hout.
    destruct (csv_to_xml_row false row w) as [[[]|e] w1] eqn:Hrow.
    + destruct Hout as (parsed & w0 & Hparsed & Hxml).
      destruct (IH w1) as (docs & Hdocs & Hlen & Hall).
      exists (render_xml parsed :: docs).
      rewrite Hdocs, Hxml, <- app_assoc. split_and!; [done | | ].
      * destruct (csv_to_xml reader false w1) as [[[]|e] w2]; cbn [fst snd] in *.
        { cbn [length]. lia. }
        destruct Hlen as (Hlt & row' & wi & Hlook & Hpre & Hfail).
        split; [cbn [length]; lia | ].
        exists row', wi. cbn [length take]. split; [done | split; [ | done] ].
        by rewrite csv_to_xml_cons, Hrow.
      * cbn [length take]. constructor; [ | done]. by exists parsed, w, w0.
    + exists []. rewrite app_nil_r. cbn [fst snd length take].
      split; [done | split; [ | constructor] ].
      split; [lia | ]. by exists row, w.
Qed.

(** One committed row never prints, never removes a directory or a file,
    makes no directory where a regular file is and changes no file but a
    file named [metadata.xml]. *)
Lemma csv_to_xml_row_commit_frame row w :
  let w' := (csv_to_xml_row true row w).2 in
  stdout w' = stdout w ∧ disk_grows w w' ∧
  (∀ q, last q ≠ Some "metadata.xml" → fs_files w' !! q = fs_files w !! q).
Proof.
  cbn zeta. rewrite csv_to_xml_row_run.
  destruct (parse_row row w) as [[parsed|e] w1] eqn:Hrow;
    apply parse_row_disk in Hrow as (Hd & Hf & Ho);
    [ | cbn [snd]; rewrite Hf, Ho; split_and!;
        [done | by apply disk_grows_same | done] ].
  destruct (row !! "issue") as [issue|];
    [ | cbn [snd]; rewrite Hf, Ho; split_and!;
        [done | by apply disk_grows_same | done] ].
  cbn zeta.
  match goal with
  | |- context [mkdir_parents ?dp] =>
      match goal with
      | |- context [open_write _ ?text] =>
          match goal with
          | |- context [logger INFO ?msg] =>
              pose proof (commit_steps_frame msg dp text w1) as Hsteps
          end
      end
  end.
  cbn zeta in Hsteps. destruct Hsteps as (Hso & _ & Hgrow & Hsf).
  split_and!.
  - by rewrite Hso.
  - eapply disk_grows_trans; [by apply (disk_grows_same w w1) | done].
  - intros q Hq. by rewrite Hsf, Hf.
Qed.

(** X12. A batch with [commit] never prints, never removes a directory or a
    file, makes no directory where a regular file was, and leaves every file
    alone that is not named [metadata.xml]; this holds also when the batch
    raises. *)
Theorem commit_writes_only_metadata_files (reader : list Row) (w : world) :
  let w' := (csv_to_xml reader true w).2 in
  stdout w' = stdout w ∧
  fs_dirs w ⊆ fs_dirs w' ∧
  (∀ q, is_Some (fs_files w !! q) → is_Some (fs_files w' !! q)) ∧
  (∀ q, q ∈ fs_dirs w' → q ∉ fs_dirs w → fs_files w !! q = None) ∧
  (∀ q, last q ≠ Some "metadata.xml" → fs_files w' !! q = fs_files w !! q).
Proof.
  cbn zeta.
  enough (stdout (csv_to_xml reader true w).2 = stdout w ∧
          disk_grows w (csv_to_xml reader true w).2 ∧
          (∀ q, last q ≠ Some "metadata.xml" →
                fs_files (csv_to_xml reader true w).2 !! q = fs_files w !! q))
    as (Ho & (Hd & Hk & Hn) & Hf) by (by split_and!).
  revert w. induction reader as [|row reader IH]; intros w.
  - split_and!; [done | apply disk_grows_refl | done].
  - rewrite csv_to_xml_cons.
    destruct (csv_to_xml_row_commit_frame row w) as (Ho & Hgrow & Hf).
    destruct (csv_to_xml_row true row w) as [[[]|e] w1]; cbn [snd] in *.
    + destruct (IH w1) as (Ho' & Hgrow' & Hf'). split_and!.
      * congruence.
      * by eapply disk_grows_trans.
      * intros q Hq. rewrite Hf', Hf; done.
    + by split_and!.
Qed.

Lemma csv_to_xml_commit_grows reader w r w' :
  csv_to_xml reader true w = (r, w') → disk_grows w w'.
Proof.
  revert w. induction reader as [|row reader IH]; intros w.
  - intros [= _ <-]. apply disk_grows_refl.
  - rewrite csv_to_xml_cons.
    destruct (csv_to_xml_row_commit_frame row w) as (_ & Hgrow & _).
    destruct (csv_to_xml_row true row w) as [[[]|e] w1]; cbn [snd] in *.
    + intros Hrest%IH. by eapply disk_grows_trans.
    + by intros [= _ <-].
Qed.

(** X13. Once a row has been committed, any later row of the batch for the
    same article (same [issue], [article_id] and [context_key]) that is
    reached and mapped cannot fail on the disk: it makes no new directory and
    replaces the content of the file that the earlier row wrote by its own
    document, whatever the rows between the two did. *)
Theorem later_row_overwrites_same_destination
    (row1 row2 : Row) (between : list Row) (w w2 w3 w4 : world)
    (parsed2 : gmap string pyval) :
  csv_to_xml_row true row1 w = (Ok (), w2) →
  csv_to_xml between true w2 = (Ok (), w3) →
  parse_row row2 w3 = (Ok parsed2, w4) →
  row2 !! "issue" = row1 !! "issue" →
  row2 !! "context_key" = row1 !! "context_key" →
  row2 !! "article_id" = row1 !! "article_id" →
  let xml2 := render_to_string "bepress/xml/metadata.xml"
                {["article" := parsed2]} in
  ∃ target xml1 w5,
    fs_files w2 = <[ target := xml1 ]> (fs_files w) ∧
    csv_to_xml_row true row2 w3 = (Ok (), w5) ∧
    csv_to_xml (row1 :: between ++ [row2]) true w = (Ok (), w5) ∧
    fs_files w5 = <[ target := xml2 ]> (fs_files w3) ∧
    fs_dirs w5 = fs_dirs w3.
Proof.
  intros Hrow1 Hbetween Hrow2 Hissue2 Hck2 Hid2 xml2.
  pose proof Hrow1 as Hinv.
  apply csv_to_xml_row_commit_Ok in Hinv
    as (parsed1 & w1 & issue & ck & dir & Hparse1 & Hissue & Hck
        & Hwalk & Hfiles & Hnodir & _ & _ & _).
  rewrite Hissue in Hissue2. rewrite Hck in Hck2.
  cbn zeta in Hwalk. rewrite <- Hid2 in Hwalk.
  pose proof (csv_to_xml_commit_grows _ _ _ _ Hbetween) as (Hd3 & Hk3 & Hn3).
  destruct (parse_row_disk _ _ _ _ Hrow2) as (Hd4 & Hf4 & Ho4).
  assert (Hnodir3 : dir ++ ["metadata.xml"] ∉ fs_dirs w3).
  { intros Hin. specialize (Hn3 _ Hin Hnodir).
    by rewrite Hfiles, lookup_insert_eq in Hn3. }
  assert (Hrun2 : csv_to_xml_row true row2 w3
                  = (Ok (), World (fs_dirs w3)
                                  (<[dir ++ ["metadata.xml"] := xml2]> (fs_files w3))
                                  (stdout w3)
                                  (log w4 ++ [(INFO, Py.format_s "Writing to %s"
                                     (path_str (MkPath
                                        (path_root (Path [BEPRESS_PATH; issue;
                                           match row2 !! "article_id" with
                                           | Some a => if Py.truthy a then a else ck
                                           | None => ck
                                           end]))
                                        (path_parts (Path [BEPRESS_PATH; issue;
                                           match row2 !! "article_id" with
                                           | Some a => if Py.truthy a then a else ck
                                           | None => ck
                                           end]) ++ ["metadata.xml"]))))])
                                  (fetched w4))).
  { rewrite csv_to_xml_row_run, Hrow2, Hissue2, Hck2.
    change (default "" (Some ck)) with ck. cbn zeta.
    rewrite commit_steps_run. cbn zeta.
    rewrite mkdir_parents_existing.
    - cbn [fs_dirs fs_files stdout log fetched]. rewrite Hd4, Hf4, Ho4.
      rewrite (walk_mono _ _ _ (fs_files w3) _ _ _ Hd3 Hwalk).
      destruct (entry_kind _ _ _) eqn:Hk; [done | done | ].
      apply entry_kind_Dir in Hk as [Hk|Hk]; [by destruct dir | done].
    - apply is_dir_true. exists dir. cbn [fs_dirs fs_files].
      rewrite Hd4. exact (walk_mono _ _ _ _ _ _ _ Hd3 Hwalk). }
  eexists (dir ++ ["metadata.xml"]), (render_xml parsed1), _.
  split_and!; [done | exact Hrun2 | | done | done].
  rewrite csv_to_xml_cons, Hrow1, csv_to_xml_app, Hbetween.
  by rewrite csv_to_xml_cons, Hrun2.
Qed.

(** The requests of one call of [get_fulltext_url], of one mapping and of one
    row of the batch: none or one, added after the earlier ones. *)
Lemma get_fulltext_url_fetched row unstamped scrape w :
  ∃ urls, fetched (get_fulltext_url row unstamped scrape w).2
            = fetched w ++ urls ∧ length urls ≤ 1.
Proof.
  rewrite get_fulltext_url_guard.
  destruct (negb _ && scrape && _) eqn:Hguard;
    [ | exists []; rewrite app_nil_r; split; [done | simpl; lia] ].
  apply andb_true_iff in Hguard as [_ (c & Hc & _)%truthy_opt_true].
  rewrite (scrape_fulltext_url_run _ _ _ _ Hc). cbn zeta. exists [c].
  split; [ | simpl; lia].
  destruct (network c) as [exc|[|] text]; [done | | done].
  destruct (find_pdf_anchor text) as [attrs|]; [ | done].
  by destruct (attrs !! "href").
Qed.

Lemma parse_row_fetched row w :
  ∃ urls, fetched (parse_row row w).2 = fetched w ++ urls ∧ length urls ≤ 1.
Proof.
  rewrite parse_row_run, parse_article_metadata_run.
  destruct (row !! "disciplines") as [d|];
    [ | exists []; rewrite app_nil_r; split; [done | simpl; lia] ].
  destruct (get_fulltext_url_fetched row true true w) as (urls & Hurls & Hlen).
  exists urls. split; [ | done].
  destruct (get_fulltext_url row true true w) as [[url|e] w1]; [ | done].
  by destruct (row !! "context_key").
Qed.

Lemma csv_to_xml_row_fetched commit row w :
  ∃ urls, fetched (csv_to_xml_row commit row w).2 = fetched w ++ urls ∧
          length urls ≤ 1.
Proof.
  rewrite csv_to_xml_row_run.
  destruct (parse_row_fetched row w) as (urls & Hurls & Hlen).
  exists urls. split; [ | done].
  destruct (parse_row row w) as [[parsed|e] w1]; [ | done].
  destruct (row !! "issue") as [issue|]; [ | done]. cbn zeta.
  destruct commit; [ | done].
  match goal with
  | |- context [mkdir_parents ?dp] =>
      match goal with
      | |- context [open_write _ ?text] =>
          match goal with
          | |- context [logger INFO ?msg] =>
              destruct (commit_steps_frame msg dp text w1) as (_ & Hf & _)
          end
      end
  end.
  cbn [snd] in Hurls. by rewrite <- Hurls, <- Hf.
Qed.

(** X14. A batch sends at most one request for each of its rows, after the
    requests sent before it, with or without [commit] and also when it
    raises. *)
Theorem batch_sends_at_most_one_request_per_row
    (reader : list Row) (commit : bool) (w : world) :
  ∃ urls,
    fetched (csv_to_xml reader commit w).2 = fetched w ++ urls ∧
    length urls ≤ length reader.
Proof.
  revert w. induction reader as [|row reader IH]; intros w.
  - exists []. rewrite app_nil_r. split; [done | simpl; lia].
  - rewrite csv_to_xml_cons.
    destruct (csv_to_xml_row_fetched commit row w) as (urls & Hurls & Hlen).
    destruct (csv_to_xml_row commit row w) as [[[]|e] w1]; cbn [snd] in Hurls.
    + destruct (IH w1) as (urls' & Hurls' & Hlen').
      exists (urls ++ urls'). rewrite Hurls', Hurls, <- app_assoc.
      split; [done | ]. rewrite length_app. simpl. lia.
    + exists urls. split; [done | ]. simpl. lia.
Qed.

(** X15. The directory of a committed row and the identity inside its
    document can differ: for a row with a non-empty [article_id], the file
    [metadata.xml] is written in the directory that [pathlib] makes of
    [BEPRESS_PATH], the issue and that [article_id], while the article
    dictionary that is rendered into it carries the row's [context_key] as
    [article_id]. This is so whenever the row is written, and it is written
    whenever no part of the directory is [..], no regular file stands where
    a directory is needed and no directory stands at the destination. *)
Theorem directory_named_by_article_id_document_by_context_key
    (row : Row) (w w1 : world) (parsed : gmap string pyval)
    (a ck issue : string) :
  parse_row row w = (Ok parsed, w1) →
  row !! "article_id" = Some a → a ≠ "" →
  row !! "context_key" = Some ck →
  row !! "issue" = Some issue →
  let dir_path := Path [BEPRESS_PATH; issue; a] in
  let base := path_base dir_path in
  let xml := render_to_string "bepress/xml/metadata.xml"
               {["article" := parsed]} in
  parsed !! "article_id" = Some (PyStr ck) ∧
  (∀ w2,
     csv_to_xml_row true row w = (Ok (), w2) →
     ∃ dir,
       walk (fs_dirs w2) (fs_files w2) base (path_parts dir_path) = inr dir ∧
       fs_files w2 !! (dir ++ ["metadata.xml"]) = Some xml) ∧
  (".." ∉ path_parts dir_path →
   (∀ q, q ∈ path_chain base (path_parts dir_path) → fs_files w !! q = None) →
   base ++ path_parts dir_path ++ ["metadata.xml"] ∉ fs_dirs w →
   ∃ w2,
     csv_to_xml_row true row w = (Ok (), w2) ∧
     fs_files w2 !! (base ++ path_parts dir_path ++ ["metadata.xml"])
       = Some xml).
Proof.
  intros Hrow Ha Hne Hck Hissue dir_path base xml.
  assert (Hid : match row !! "article_id" with
                | Some a' => if Py.truthy a' then a' else ck
                | None => ck
                end = a).
  { by rewrite Ha, (proj2 (truthy_true a) Hne). }
  split_and!.
  - pose proof Hrow as Hparsed.
    apply parse_row_Ok in Hparsed as (article_dict & Hmeta & ->).
    apply parse_article_metadata_Ok in Hmeta
      as (d & url & ck' & _ & _ & Hck' & ->).
    rewrite Hck in Hck'. injection Hck' as <-.
    rewrite lookup_insert_ne by done. apply article_dict_lookup_derived.
  - intros w2 Hrun.
    apply csv_to_xml_row_commit_Ok in Hrun
      as (parsed' & w1' & issue' & ck' & dir & Hrow' & Hissue' & Hck'
          & Hwalk & Hfiles & _).
    rewrite Hrow in Hrow'. injection Hrow' as <- <-.
    rewrite Hissue in Hissue'. injection Hissue' as <-.
    rewrite Hck in Hck'. injection Hck' as <-.
    cbn zeta in Hwalk. rewrite Hid in Hwalk.
    exists dir. split; [done | ]. rewrite Hfiles. apply lookup_insert_eq.
  - intros Hplain Hfree Hnodir.
    pose proof (csv_to_xml_row_commit_plain row w parsed w1 ck issue
                  Hrow Hck Hissue) as Hwrite.
    cbn zeta in Hwrite. rewrite Hid in Hwrite.
    destruct (Hwrite Hplain Hfree Hnodir) as (w2 & Hrun & _ & Hfiles & _).
    exists w2. split; [done | ]. rewrite Hfiles. apply lookup_insert_eq.
Qed.

End CsvHandler.

(** ** The theorems on the sample data *)

(** C2 on a row with the full-text URL [http://x/y]. *)
Lemma explicit_url_returned_without_fetch_witness :
  row_explicit !! "fulltext_url" = Some "http://x/y" ∧
  ∃ w',
    get_fulltext_url sample_network sample_find_pdf_anchor
      row_explicit true true world0
      = (Ok (Some "http://x/y?unstamped=1"), w') ∧
    fetched w' = fetched world0 ∧ w' = world0.
Proof.
  split; [reflexivity | ].
  apply (explicit_url_returned_without_fetch
           sample_network sample_find_pdf_anchor row_explicit "http://x/y" world0);
    [reflexivity | discriminate].
Defined.

(** C3 on a row whose article page has the anchor
    [<a id='pdf' href='http://x/y.pdf'>]. *)
Lemma scraped_url_stamped_when_not_empty_witness :
  row_scrape "http://x/a1" !! "fulltext_url" = None ∧
  sample_network "http://x/a1" = Response true page_with_pdf ∧
  ∃ w',
    get_fulltext_url sample_network sample_find_pdf_anchor
      (row_scrape "http://x/a1") true true world0
      = (Ok (Some "http://x/y.pdf?unstamped=1"), w') ∧
    fetched w' = fetched world0 ++ ["http://x/a1"].
Proof.
  split; [reflexivity | split; [reflexivity | ] ].
  apply (scraped_url_stamped_when_not_empty
           sample_network sample_find_pdf_anchor (row_scrape "http://x/a1")
           "http://x/a1" page_with_pdf "http://x/y.pdf"
           (<["href" := "http://x/y.pdf"]> {["id" := "pdf"]}) world0);
    [by left | reflexivity | discriminate | reflexivity | reflexivity
    | reflexivity].
Defined.

(** C3 as it was stated fails on a page whose anchor has an empty href: the
    row has no full-text URL, the request succeeds and the anchor is found,
    and the result is the empty string, not the empty string followed by the
    flag. *)
Lemma scraped_empty_href_gets_no_flag :
  let row := row_scrape "http://x/a2" in
  let attrs := <["href" := ""]> {["id" := "pdf"]} in
  row !! "fulltext_url" = None ∧
  row !! "calc_url" = Some "http://x/a2" ∧
  sample_network "http://x/a2" = Response true page_with_empty_href ∧
  sample_find_pdf_anchor page_with_empty_href = Some attrs ∧
  attrs !! "href" = Some "" ∧
  (get_fulltext_url sample_network sample_find_pdf_anchor row true true world0).1
    = Ok (Some "") ∧
  (get_fulltext_url sample_network sample_find_pdf_anchor row true true world0).1
    ≠ Ok (Some ("" +:+ "?unstamped=1")).
Proof.
  cbn zeta. split_and!; try reflexivity.
  vm_compute. discriminate.
Defined.

(** C5 on a row whose article page is unreachable. *)
Lemma resolution_failure_returns_empty_witness :
  row_scrape "http://x/a9" !! "calc_url" = Some "http://x/a9" ∧
  sample_network "http://x/a9" = RequestException "connection refused" ∧
  ∃ w',
    get_fulltext_url sample_network sample_find_pdf_anchor
      (row_scrape "http://x/a9") true true world0 = (Ok None, w') ∧
    fetched w' = fetched world0 ++ ["http://x/a9"] ∧
    (∀ exc, sample_network "http://x/a9" = RequestException exc →
       log w' = log world0
                ++ [(INFO, Py.format_s "Fetching article from %s" "http://x/a9")]
                ++ [(WARNING, Py.format_s "Failed to extract PDF URL: %s" exc)]).
Proof.
  split; [reflexivity | split; [reflexivity | ] ].
  apply (resolution_failure_returns_empty
           sample_network sample_find_pdf_anchor (row_scrape "http://x/a9")
           "http://x/a9" true world0);
    [by left | reflexivity | discriminate | ].
  left. by eexists.
Defined.

(** C6 as it was stated fails on a row with disciplines and an article id
    but no context key: the mapping raises. *)
Lemma article_id_does_not_replace_context_key :
  row_no_context_key !! "disciplines" = Some "A" ∧
  row_no_context_key !! "article_id" = Some "7" ∧
  row_no_context_key !! "context_key" = None ∧
  parse_article_metadata sample_network sample_find_pdf_anchor
    row_no_context_key world0
    = (Err (KeyError "context_key"), world0).
Proof. split_and!; reflexivity. Defined.

(** The sample rows are mapped to the sample dictionaries. *)
Lemma parse_row_explicit :
  parse_row sample_network sample_find_pdf_anchor row_explicit world0
    = (Ok parsed_explicit, world0).
Proof. vm_cast_no_check (eq_refl (Ok parsed_explicit, world0)). Qed.

Lemma parse_article_metadata_empty_language :
  parse_article_metadata sample_network sample_find_pdf_anchor
    row_empty_language world0 = (Ok article_empty_language, world0).
Proof. vm_cast_no_check (eq_refl (Ok article_empty_language, world0)). Qed.

(** C7 on a row with a full-text URL and an article id of its own. *)
Lemma row_fields_carried_except_overlaid_witness :
  parse_row sample_network sample_find_pdf_anchor row_explicit world0
    = (Ok parsed_explicit, world0) ∧
  (∀ k v, row_explicit !! k = Some v →
          k ∉ ["keywords"; "fulltext_url"; "article_id"; "authors"] →
          parsed_explicit !! k = Some (PyStr v)) ∧
  dom parsed_explicit
    = dom row_explicit
      ∪ list_to_set ["keywords"; "fulltext_url"; "article_id";
                     "language"; "peer_reviewed"; "authors"] ∧
  ∃ disciplines fulltext_url context_key,
    row_explicit !! "disciplines" = Some disciplines ∧
    get_fulltext_url sample_network sample_find_pdf_anchor
      row_explicit true true world0 = (Ok fulltext_url, world0) ∧
    row_explicit !! "context_key" = Some context_key ∧
    parsed_explicit !! "keywords" = Some (PyList (Py.split ";" disciplines)) ∧
    parsed_explicit !! "fulltext_url" = Some (match fulltext_url with
                                              | Some u => PyStr u
                                              | None => PyNone
                                              end) ∧
    parsed_explicit !! "article_id" = Some (PyStr context_key) ∧
    parsed_explicit !! "authors" = Some (PyDicts (parse_authors row_explicit)) ∧
    (row_explicit !! "language" = None →
     parsed_explicit !! "language" = Some (PyStr "en")) ∧
    (row_explicit !! "peer_reviewed" = None →
     parsed_explicit !! "peer_reviewed" = Some (PyBool false)).
Proof.
  split; [exact parse_row_explicit | ].
  exact (row_fields_carried_except_overlaid
           sample_network sample_find_pdf_anchor row_explicit world0 world0
           parsed_explicit parse_row_explicit).
Defined.

(** C7 as it was stated fails on the same row: its [fulltext_url] and its
    [article_id] are in the article dictionary with other values. *)
Lemma overlaid_fields_differ_from_row :
  parse_row sample_network sample_find_pdf_anchor row_explicit world0
    = (Ok parsed_explicit, world0) ∧
  row_explicit !! "fulltext_url" = Some "http://x/y" ∧
  parsed_explicit !! "fulltext_url" = Some (PyStr "http://x/y?unstamped=1") ∧
  row_explicit !! "article_id" = Some "7" ∧
  parsed_explicit !! "article_id" = Some (PyStr "42") ∧
  ¬ (∀ k v, row_explicit !! k = Some v → parsed_explicit !! k = Some (PyStr v)).
Proof.
  assert (Hrow : row_explicit !! "article_id" = Some "7")
    by (vm_compute; reflexivity).
  assert (Hparsed : parsed_explicit !! "article_id" = Some (PyStr "42"))
    by (vm_compute; reflexivity).
  split; [exact parse_row_explicit | ].
  split_and!; try (vm_compute; reflexivity).
  intros H. specialize (H "article_id" "7" Hrow).
  rewrite Hparsed in H. discriminate H.
Defined.


(** The paths of the sample rows under [/data]. *)
Lemma explicit_row_directory :
  Path ["/data"; "3"; "7"] = MkPath "/" ["data"; "3"; "7"].
Proof. vm_compute. reflexivity. Qed.



(** C9 on the scenario row, whose disciplines are [A;B;C]. *)
Lemma keywords_split_never_empty_witness :
  row_scenario !! "disciplines" = Some "A;B;C" ∧
  1 ≤ length (Py.split ";" "A;B;C") ∧
  ∃ article_dict,
    parse_article_metadata sample_network sample_find_pdf_anchor
      row_scenario world0 = (Ok article_dict, world0) ∧
    article_dict !! "keywords" = Some (PyList ["A"; "B"; "C"]).
Proof.
  assert (Hd : row_scenario !! "disciplines" = Some "A;B;C")
    by (vm_compute; reflexivity).
  assert (Hck : row_scenario !! "context_key" = Some "42")
    by (vm_compute; reflexivity).
  assert (Hurl : get_fulltext_url sample_network sample_find_pdf_anchor
                   row_scenario true true world0 = (Ok None, world0))
    by (vm_compute; reflexivity).
  split; [exact Hd | ].
  destruct (keywords_split_never_empty sample_network sample_find_pdf_anchor
              row_scenario "A;B;C" world0 Hd) as (Hlen & _ & _ & _ & Hrun).
  split; [exact Hlen | ].
  exact (Hrun "42" None world0 Hck Hurl).
Defined.

(** C10 on a row whose [language] and [peer_reviewed] are empty strings. *)
Lemma defaults_only_for_absent_keys_witness :
  row_empty_language !! "language" = Some "" ∧
  row_empty_language !! "peer_reviewed" = Some "" ∧
  parse_article_metadata sample_network sample_find_pdf_anchor
    row_empty_language world0 = (Ok article_empty_language, world0) ∧
  article_empty_language !! "language" = Some (PyStr "") ∧
  article_empty_language !! "peer_reviewed" = Some (PyStr "").
Proof.
  assert (Hl : row_empty_language !! "language" = Some "")
    by (vm_compute; reflexivity).
  assert (Hp : row_empty_language !! "peer_reviewed" = Some "")
    by (vm_compute; reflexivity).
  destruct (defaults_only_for_absent_keys sample_network
              sample_find_pdf_anchor row_empty_language world0 world0
              article_empty_language parse_article_metadata_empty_language)
    as (_ & _ & Hlang & Hpr & _).
  split_and!;
    [exact Hl | exact Hp | exact parse_article_metadata_empty_language
    | exact (Hlang Hl) | exact (Hpr Hp)].
Defined.

(** ** The scenarios of the documentation *)

(** A blank first author ends the scan: the second author is not read. *)
Example authors_after_a_blank_are_ignored :
  build_author row_author_gap 2 = {["first_name" := "Bo"]} ∧
  parse_authors row_author_gap = [].
Proof. split; vm_compute; reflexivity. Qed.

(** Empty fields are left out of an author, and the scan ends at index 3. *)
Example two_authors_parsed :
  parse_authors row_two_authors
    = [ {["first_name" := "Ann"]}; {["last_name" := "Lee"]} ].
Proof. vm_compute. reflexivity. Qed.

(** A row without author columns has no authors. *)
Example no_author_columns : parse_authors row_scenario = [].
Proof. vm_compute. reflexivity. Qed.


(** ** Destinations that [pathlib] does not keep under the base directory *)

(** [pathlib] drops empty pieces and single dots, keeps [..], and starts
    again at an argument with a root; two leading slashes are a root of
    their own, three are the root [/]. *)
Example pathlib_on_sample_arguments :
  Path ["a//b/./c/"; "../d"] = MkPath "" ["a"; "b"; "c"; ".."; "d"] ∧
  Path ["a"; "/b"; "c"] = MkPath "/" ["b"; "c"] ∧
  Path ["//a"; "b"] = MkPath "//" ["a"; "b"] ∧
  Path ["///a"; ""] = MkPath "/" ["a"] ∧
  path_str (Path [""; "."]) = "." ∧
  path_str (Path ["/data/"; "3"; "42"; "metadata.xml"])
    = "/data/3/42/metadata.xml" ∧
  path_parent (Path ["/data"; "3"; "42"; "metadata.xml"])
    = Path ["/data"; "3"; "42"].
Proof. split_and!; vm_compute; reflexivity. Qed.

(** A relative base directory is taken from the working directory. *)
Example relative_base_is_under_working_directory :
  let run := csv_to_xml "out" sample_network sample_find_pdf_anchor
               sample_render home_cwd [row_scenario] true world_home in
  run.1 = Ok () ∧
  map_to_list (fs_files run.2)
    = [ (["home"; "janeway"; "out"; "3"; "42"; "metadata.xml"],
         "<document id='42'/>") ] ∧
  log run.2 = [ (INFO, "Writing to out/3/42/metadata.xml") ].
Proof. cbn zeta. split_and!; vm_compute; reflexivity. Qed.

(** An empty identity is no part of the path: the row is written to
    [/data/3/metadata.xml]. *)
Example empty_identity_is_no_directory :
  let run := csv_to_xml "/data" sample_network sample_find_pdf_anchor
               sample_render sample_cwd [row_empty_identity] true world0 in
  output_path "/data" "3" "" = MkPath "/" ["data"; "3"; "metadata.xml"] ∧
  run.1 = Ok () ∧
  map_to_list (fs_files run.2)
    = [ (["data"; "3"; "metadata.xml"], "<document id=''/>") ] ∧
  log run.2 = [ (INFO, "Writing to /data/3/metadata.xml") ].
Proof. cbn zeta. split_and!; vm_compute; reflexivity. Qed.

(** An absolute issue replaces the base directory: the row is written to
    [/srv/out/42/metadata.xml]. *)
Example absolute_issue_leaves_base_directory :
  let run := csv_to_xml "/data" sample_network sample_find_pdf_anchor
               sample_render sample_cwd [row_absolute_issue] true world0 in
  output_path "/data" "/srv/out" "42"
    = MkPath "/" ["srv"; "out"; "42"; "metadata.xml"] ∧
  run.1 = Ok () ∧
  map_to_list (fs_files run.2)
    = [ (["srv"; "out"; "42"; "metadata.xml"], "<document id='42'/>") ] ∧
  log run.2 = [ (INFO, "Writing to /srv/out/42/metadata.xml") ].
Proof. cbn zeta. split_and!; vm_compute; reflexivity. Qed.

(** A slash in the issue makes two directories; a regular file where the
    first of them has to be stops the batch with [ENOTDIR], and nothing is
    written. *)
Example file_in_the_way_stops_batch :
  let run := csv_to_xml "/data" sample_network sample_find_pdf_anchor
               sample_render sample_cwd [row_slashed_issue] true
               world_file_in_the_way in
  output_path "/data" "vol1/iss1" "42"
    = MkPath "/" ["data"; "vol1"; "iss1"; "42"; "metadata.xml"] ∧
  run.1 = Err (OSError ENOTDIR "/data/vol1/iss1/42") ∧
  fs_dirs run.2 = fs_dirs world_file_in_the_way ∧
  fs_files run.2 = fs_files world_file_in_the_way.
Proof. cbn zeta. split_and!; vm_compute; reflexivity. Qed.

(** The same row is written when the disk is empty. *)
Example slashed_issue_written :
  let run := csv_to_xml "/data" sample_network sample_find_pdf_anchor
               sample_render sample_cwd [row_slashed_issue] true world0 in
  run.1 = Ok () ∧
  map_to_list (fs_files run.2)
    = [ (["data"; "vol1"; "iss1"; "42"; "metadata.xml"],
         "<document id='42'/>") ].
Proof. cbn zeta. split_and!; vm_compute; reflexivity. Qed.

(** ** The further theorems on the sample data *)

(** X4 on the row with the full-text URL [http://x/y]. *)
Lemma returned_url_always_flagged_witness :
  Py.contains "?" "http://x/y?unstamped=1" = true ∧
  ∃ u, u ≠ "" ∧
       get_fulltext_url sample_network sample_find_pdf_anchor
         row_explicit false true world0 = (Ok (Some u), world0) ∧
       "http://x/y?unstamped=1"
         = u +:+ (if Py.contains "?" u then "&" else "?") +:+ "unstamped=1".
Proof.
  apply (returned_url_always_flagged sample_network sample_find_pdf_anchor
           row_explicit true world0 world0 "http://x/y?unstamped=1");
    [vm_compute; reflexivity | discriminate].
Defined.

(** X5 on a row and the same row without an empty author column. *)
Lemma authors_depend_on_author_columns_only_witness :
  row_two_authors !! "author1_email" = Some "" ∧
  row_two_authors_no_email !! "author1_email" = None ∧
  parse_authors row_two_authors = parse_authors row_two_authors_no_email.
Proof.
  split; [vm_compute; reflexivity | split; [vm_compute; reflexivity | ] ].
  apply authors_depend_on_author_columns_only.
  intros src dest i v _ _ Hv. unfold row_two_authors_no_email.
  destruct (decide (Py.format_d src i = "author1_email")) as [->|Hne].
  - rewrite lookup_delete_eq.
    assert (row_two_authors !! "author1_email" = Some "") as ->
      by (vm_compute; reflexivity).
    split; [by intros [= <-] | done].
  - by rewrite lookup_delete_ne.
Defined.

(** X6 on the last name of the second author of [row_two_authors]. *)
Lemma author_column_round_trip_witness :
  row_two_authors !! "author2_lname" = Some "Lee" ∧
  ∃ author, parse_authors row_two_authors !! (2 - 1) = Some author ∧
            author !! "last_name" = Some "Lee".
Proof.
  assert (Hv : row_two_authors !! "author2_lname" = Some "Lee")
    by (vm_compute; reflexivity).
  split; [exact Hv | ].
  apply (author_column_round_trip row_two_authors "author%d_lname"
           "last_name" "Lee" 2).
  - apply list_elem_of_lookup. by exists 2.
  - lia.
  - exact Hv.
  - discriminate.
  - intros j Hj. assert (j = 1) as -> by lia.
    exists "author%d_fname", "first_name", "Ann". split_and!.
    + apply list_elem_of_lookup. by exists 0.
    + vm_compute. reflexivity.
    + discriminate.
Defined.

(** X7 on a row whose disciplines are [A;B;C]. *)
Lemma keywords_are_cut_at_every_semicolon_witness :
  row_empty_language !! "disciplines" = Some "A;B;C" ∧
  ∃ keywords,
    article_empty_language !! "keywords" = Some (PyList keywords) ∧
    Forall (λ keyword, Py.contains ";" keyword = false) keywords ∧
    length keywords = 3.
Proof.
  assert (Hd : row_empty_language !! "disciplines" = Some "A;B;C")
    by (vm_compute; reflexivity).
  split; [exact Hd | ].
  exact (keywords_are_cut_at_every_semicolon sample_network
           sample_find_pdf_anchor row_empty_language "A;B;C" world0 world0
           article_empty_language parse_article_metadata_empty_language Hd).
Defined.

(** X8 on the row with the article id [7] and the context key [42]. *)
Lemma parse_row_derived_fields_witness :
  row_explicit !! "article_id" = Some "7" ∧
  ∃ context_key fulltext_url,
    row_explicit !! "context_key" = Some context_key ∧
    get_fulltext_url sample_network sample_find_pdf_anchor
      row_explicit true true world0 = (Ok fulltext_url, world0) ∧
    parsed_explicit !! "article_id" = Some (PyStr context_key) ∧
    parsed_explicit !! "fulltext_url" = Some (match fulltext_url with
                                              | Some u => PyStr u
                                              | None => PyNone
                                              end) ∧
    parsed_explicit !! "authors" = Some (PyDicts (parse_authors row_explicit)).
Proof.
  split; [vm_compute; reflexivity | ].
  exact (parse_row_derived_fields sample_network sample_find_pdf_anchor
           row_explicit world0 world0 parsed_explicit parse_row_explicit).
Defined.


(** The sample worlds are the worlds of the sample batches. *)
Lemma scenario_row_printed :
  csv_to_xml "/data" sample_network sample_find_pdf_anchor sample_render
    sample_cwd [row_scenario] false world0 = (Ok (), world_scenario_printed).
Proof. vm_cast_no_check (eq_refl (Ok (), world_scenario_printed)). Qed.

Lemma no_context_key_row_raises :
  csv_to_xml_row "/data" sample_network sample_find_pdf_anchor sample_render
    sample_cwd false row_no_context_key world_scenario_printed
    = (Err (KeyError "context_key"), world_scenario_printed).
Proof.
  vm_cast_no_check
    (eq_refl (Err (A:=()) (KeyError "context_key"), world_scenario_printed)).
Qed.

Lemma parse_row_no_issue :
  parse_row sample_network sample_find_pdf_anchor row_no_issue world0
    = (Ok parsed_no_issue, world0).
Proof. vm_cast_no_check (eq_refl (Ok parsed_no_issue, world0)). Qed.

Lemma explicit_row_committed :
  csv_to_xml_row "/data" sample_network sample_find_pdf_anchor sample_render
    sample_cwd true row_explicit world0 = (Ok (), world_explicit_committed).
Proof. vm_cast_no_check (eq_refl (Ok (), world_explicit_committed)). Qed.

Lemma scenario_row_committed_after :
  csv_to_xml "/data" sample_network sample_find_pdf_anchor sample_render
    sample_cwd [row_scenario] true world_explicit_committed
    = (Ok (), world_two_committed).
Proof. vm_cast_no_check (eq_refl (Ok (), world_two_committed)). Qed.

Lemma parse_row_explicit_again :
  parse_row sample_network sample_find_pdf_anchor row_explicit
    world_two_committed = (Ok parsed_explicit, world_two_committed).
Proof.
  vm_cast_no_check (eq_refl (Ok parsed_explicit, world_two_committed)).
Qed.

(** X9 on a dry run of three rows whose second has no context key. *)
Lemma batch_stops_at_first_failure_witness :
  csv_to_xml "/data" sample_network sample_find_pdf_anchor sample_render
    sample_cwd ([row_scenario] ++ row_no_context_key :: [row_scenario])
    false world0
    = (Err (KeyError "context_key"), world_scenario_printed).
Proof.
  exact (batch_stops_at_first_failure "/data" sample_network
           sample_find_pdf_anchor sample_render sample_cwd [row_scenario]
           [row_scenario] row_no_context_key false world0
           world_scenario_printed world_scenario_printed
           (KeyError "context_key")
           scenario_row_printed no_context_key_row_raises).
Defined.

(** X10 on a committed batch whose first row has no issue. *)
Lemma missing_issue_ends_batch_witness :
  row_no_issue !! "issue" = None ∧
  csv_to_xml "/data" sample_network sample_find_pdf_anchor sample_render
    sample_cwd (row_no_issue :: [row_scenario]) true world0
    = (Err (KeyError "issue"), world0) ∧
  fs_dirs world0 = fs_dirs world0 ∧ fs_files world0 = fs_files world0 ∧
  stdout world0 = stdout world0.
Proof.
  assert (Hissue : row_no_issue !! "issue" = None)
    by (vm_compute; reflexivity).
  split; [exact Hissue | ].
  exact (missing_issue_ends_batch "/data" sample_network
           sample_find_pdf_anchor sample_render sample_cwd row_no_issue
           [row_scenario] true world0 world0 parsed_no_issue
           parse_row_no_issue Hissue).
Defined.

(** X13 on a row committed a second time after another row. *)
Lemma later_row_overwrites_same_destination_witness :
  csv_to_xml_row "/data" sample_network sample_find_pdf_anchor sample_render
    sample_cwd true row_explicit world0 = (Ok (), world_explicit_committed) ∧
  csv_to_xml "/data" sample_network sample_find_pdf_anchor sample_render
    sample_cwd [row_scenario] true world_explicit_committed
    = (Ok (), world_two_committed) ∧
  ∃ target xml1 w5,
    fs_files world_explicit_committed = <[ target := xml1 ]> (fs_files world0) ∧
    csv_to_xml_row "/data" sample_network sample_find_pdf_anchor sample_render
      sample_cwd true row_explicit world_two_committed = (Ok (), w5) ∧
    csv_to_xml "/data" sample_network sample_find_pdf_anchor sample_render
      sample_cwd (row_explicit :: [row_scenario] ++ [row_explicit]) true world0
      = (Ok (), w5) ∧
    fs_files w5
      = <[ target := sample_render "bepress/xml/metadata.xml"
                       {["article" := parsed_explicit]} ]>
          (fs_files world_two_committed) ∧
    fs_dirs w5 = fs_dirs world_two_committed.
Proof.
  split; [exact explicit_row_committed | ].
  split; [exact scenario_row_committed_after | ].
  exact (later_row_overwrites_same_destination "/data" sample_network
           sample_find_pdf_anchor sample_render sample_cwd row_explicit
           row_explicit [row_scenario] world0 world_explicit_committed
           world_two_committed world_two_committed parsed_explicit
           explicit_row_committed scenario_row_committed_after
           parse_row_explicit_again eq_refl eq_refl eq_refl).
Defined.

(** X15 on the row with the article id [7] and the context key [42]. *)
Lemma directory_named_by_article_id_document_by_context_key_witness :
  row_explicit !! "article_id" = Some "7" ∧
  row_explicit !! "context_key" = Some "42" ∧
  parsed_explicit !! "article_id" = Some (PyStr "42") ∧
  ∃ w2,
    csv_to_xml_row "/data" sample_network sample_find_pdf_anchor sample_render
      sample_cwd true row_explicit world0 = (Ok (), w2) ∧
    fs_files w2 !! ([] ++ ["data"; "3"; "7"] ++ ["metadata.xml"])
      = Some (sample_render "bepress/xml/metadata.xml"
                {["article" := parsed_explicit]}).
Proof.
  assert (Hck : row_explicit !! "context_key" = Some "42")
    by (vm_compute; reflexivity).
  assert (Hissue : row_explicit !! "issue" = Some "3")
    by (vm_compute; reflexivity).
  assert (Hid : row_explicit !! "article_id" = Some "7")
    by (vm_compute; reflexivity).
  assert (Hne : "7" ≠ "") by discriminate.
  pose proof (directory_named_by_article_id_document_by_context_key "/data"
                sample_network sample_find_pdf_anchor sample_render sample_cwd
                row_explicit world0 world0 parsed_explicit "7" "42" "3"
                parse_row_explicit Hid Hne Hck Hissue)
    as (Hdoc & _ & Hwritten).
  rewrite explicit_row_directory in Hwritten.
  split_and!; [exact Hid | exact Hck | exact Hdoc | ].
  apply Hwritten; [ | intros q _; apply lookup_empty
                  | apply not_elem_of_empty].
  apply (bool_decide_unpack _). vm_compute. reflexivity.
Defined.
